(** * coc-agent: the completion clients of [src/ai-client.ts] and [lib/index.js]

    A shallow embedding of the client layer of the coc-agent extension:
    configuration and request validation, prompt construction, the two
    provider clients (OpenAI chat completions, Claude messages), their
    response parsers and the factory; and of what [src/index.ts] builds on
    it: the workspace settings, the context window around the cursor and
    the completion source.

    Conventions of the embedding.
    - A JavaScript string is its sequence of UTF-16 code units ([jsstring]).
    - A JavaScript number that the program uses as a real quantity
      (temperature, confidence) is a binary64 float ([PrimFloat.float]);
      a number that the program uses as a count (maxSuggestions, maxTokens,
      the HTTP status) is an integer ([Z]).
    - A JSON payload typed [any] in the source is a [jsval]; reading a
      property of [null] or [undefined] throws, as it does in JavaScript.
    - A function that may throw returns a [completion]; an [async] method
      that talks to the network runs in the monad [M], which threads the
      trace of observable events (requests sent, bodies read, console
      output). *)

From Stdlib Require Import ZArith NArith List Bool Lia.
From Stdlib Require Import Strings.String Strings.Ascii.
From Stdlib Require Import Numbers.DecimalString.
From Stdlib Require Import PrimFloat Uint63.
Import ListNotations.

Set Warnings "-inexact-float,-register-all".
Local Open Scope bool_scope.
Local Open Scope list_scope.

(* ------------------------------------------------------------------ *)
(** ** JavaScript strings *)

(** A string is a list of UTF-16 code units. *)
Definition jsstring := list N.

(** String literals of the source, written with Rocq's string notation. *)
Fixpoint lit (s : string) : jsstring :=
  match s with
  | EmptyString => []
  | String c s' => N_of_ascii c :: lit s'
  end.

Arguments lit : simpl never.

Definition str_eqb (a b : jsstring) : bool :=
  if list_eq_dec N.eq_dec a b then true else false.

(** The line feed, written ['\n'] in the source. *)
Definition LF : N := 10%N.
Definition nl : jsstring := [LF].

(** [WhiteSpace] and [LineTerminator] of ECMAScript: what
    [String.prototype.trim] strips. *)
Definition isWhiteSpace (c : N) : bool :=
  match c with
  | 9 | 10 | 11 | 12 | 13 | 32 | 160 | 5760
  | 8232 | 8233 | 8239 | 8287 | 12288 | 65279 => true
  | _ => (8192 <=? c) && (c <=? 8202)
  end%N.

Fixpoint trimStart (s : jsstring) : jsstring :=
  match s with
  | [] => []
  | c :: s' => if isWhiteSpace c then trimStart s' else s
  end.

Definition trimEnd (s : jsstring) : jsstring := rev (trimStart (rev s)).

(** [s.trim()] *)
Definition trim (s : jsstring) : jsstring := trimEnd (trimStart s).

(** [s.split('\n')]: the pieces between line feeds; never empty. *)
Fixpoint split_lines (s : jsstring) : list jsstring :=
  match s with
  | [] => [[]]
  | c :: s' =>
      if N.eqb c LF then [] :: split_lines s'
      else match split_lines s' with
           | [] => [[c]]
           | l :: ls => (c :: l) :: ls
           end
  end.

(** [parts.join(sep)] *)
Fixpoint join (sep : jsstring) (parts : list jsstring) : jsstring :=
  match parts with
  | [] => []
  | [p] => p
  | p :: ps => p ++ sep ++ join sep ps
  end.

(** [s.includes(needle)] *)
Fixpoint startsWith (needle s : jsstring) : bool :=
  match needle, s with
  | [], _ => true
  | _ :: _, [] => false
  | a :: needle', b :: s' => N.eqb a b && startsWith needle' s'
  end.

Fixpoint includes (needle s : jsstring) : bool :=
  startsWith needle s ||
  match s with
  | [] => false
  | _ :: s' => includes needle s'
  end.

(** Truthiness of a string: every string but the empty one. *)
Definition str_truthy (s : jsstring) : bool :=
  match s with [] => false | _ :: _ => true end.

(** [String(n)] for an integer-valued number. *)
Definition decimal (n : Z) : jsstring := lit (NilEmpty.string_of_int (Z.to_int n)).

(* ------------------------------------------------------------------ *)
(** ** JavaScript numbers *)

(** Truthiness of a number: every number but [0], [-0] and [NaN]. *)
Definition num_truthy (x : float) : bool :=
  negb (PrimFloat.eqb x 0%float || PrimFloat.is_nan x).

Definition int_truthy (n : Z) : bool := negb (Z.eqb n 0).

(** An integer-valued loop index as a number. *)
Definition float_of_index (i : nat) : float :=
  PrimFloat.of_uint63 (Uint63.of_Z (Z.of_nat i)).

(** [x || d] on an optional number. *)
Definition or_num (x : option float) (d : float) : float :=
  match x with
  | Some v => if num_truthy v then v else d
  | None => d
  end.

Definition or_int (x : option Z) (d : Z) : Z :=
  match x with
  | Some v => if int_truthy v then v else d
  | None => d
  end.

Definition or_str (x : option jsstring) (d : jsstring) : jsstring :=
  match x with
  | Some v => if str_truthy v then v else d
  | None => d
  end.

(* ------------------------------------------------------------------ *)
(** ** Errors and completions *)

(** The native error classes the program can meet. *)
Inductive ErrorClass := ErrorC | TypeErrorC | SyntaxErrorC | ReferenceErrorC.

(** A thrown value: [AIClientError] of the source, with its four
    constructor arguments, a native error with its message, or the value
    [null] or [undefined] thrown as it is ([catch] takes any value, and a
    property of these two cannot be read). *)
Inductive js_error :=
| AIClientError (message : jsstring) (provider : option jsstring)
                (statusCode : option Z) (originalError : option js_error)
| NativeError (cls : ErrorClass) (message : jsstring)
| ThrownNullish.

(** The [message] of a thrown error. *)
Definition error_message (e : js_error) : jsstring :=
  match e with
  | AIClientError m _ _ _ => m
  | NativeError _ m => m
  | ThrownNullish => []
  end.

(** The [statusCode] field of a thrown value; absent on a native error. *)
Definition error_statusCode (e : js_error) : option Z :=
  match e with
  | AIClientError _ _ sc _ => sc
  | NativeError _ _ => None
  | ThrownNullish => None
  end.

(** The [provider] field of a thrown value; absent on a native error. *)
Definition error_provider (e : js_error) : option jsstring :=
  match e with
  | AIClientError _ p _ _ => p
  | NativeError _ _ => None
  | ThrownNullish => None
  end.

Definition is_AIClientError (e : js_error) : bool :=
  match e with
  | AIClientError _ _ _ _ => true
  | NativeError _ _ => false
  | ThrownNullish => false
  end.

(** The outcome of running a JavaScript function body. *)
Inductive completion (A : Type) :=
| Returned (a : A)
| Thrown (e : js_error).
Arguments Returned {A} a.
Arguments Thrown {A} e.

Definition cbind {A B} (c : completion A) (k : A -> completion B) : completion B :=
  match c with
  | Returned a => k a
  | Thrown e => Thrown e
  end.

Notation "x <- c ;; k" := (cbind c (fun x => k))
  (at level 61, c at next level, right associativity).

(* ------------------------------------------------------------------ *)
(** ** Untyped payloads *)

(** A value of type [any]: what [JSON.parse] builds, plus [undefined]
    for an absent property.  The properties of an object are kept in
    order; a lookup takes the first that matches. *)
Inductive jsval :=
| JUndefined
| JNull
| JBool (b : bool)
| JNum (x : float)
| JStr (s : jsstring)
| JArr (items : list jsval)
| JObj (props : list (jsstring * jsval)).

Definition truthy (v : jsval) : bool :=
  match v with
  | JUndefined | JNull => false
  | JBool b => b
  | JNum x => num_truthy x
  | JStr s => str_truthy s
  | JArr _ | JObj _ => true
  end.

Fixpoint lookup (k : jsstring) (props : list (jsstring * jsval)) : jsval :=
  match props with
  | [] => JUndefined
  | (k', v) :: rest => if str_eqb k k' then v else lookup k rest
  end.

Definition cannot_read : js_error :=
  NativeError TypeErrorC (lit "Cannot read properties of undefined or null").

Definition not_a_function : js_error :=
  NativeError TypeErrorC (lit "trim is not a function").

(** [v.k] for one of the names the source reads ([content], [type],
    [text], [choices], [message], [finish_reason], [model]): none of them
    is a property of an array, a string, a number or a boolean. *)
Definition getProp (v : jsval) (k : string) : completion jsval :=
  match v with
  | JUndefined | JNull => Thrown cannot_read
  | JObj props => Returned (lookup (lit k) props)
  | JBool _ | JNum _ | JStr _ | JArr _ => Returned JUndefined
  end.

(** [v[0]] *)
Definition getIndex0 (v : jsval) : completion jsval :=
  match v with
  | JUndefined | JNull => Thrown cannot_read
  | JArr items => Returned (nth 0 items JUndefined)
  | JStr s => Returned (match s with [] => JUndefined | c :: _ => JStr [c] end)
  | JObj props => Returned (lookup (lit "0") props)
  | JBool _ | JNum _ => Returned JUndefined
  end.

(** [v.trim()]: only a string has the method. *)
Definition callTrim (v : jsval) : completion jsstring :=
  match v with
  | JStr s => Returned (trim s)
  | JUndefined | JNull => Thrown cannot_read
  | _ => Thrown not_a_function
  end.

(** [Array.isArray(v)] with the elements at hand. *)
Definition asArray (v : jsval) : option (list jsval) :=
  match v with
  | JArr items => Some items
  | _ => None
  end.

(** [v === 'literal'] *)
Definition is_str (v : jsval) (s : string) : bool :=
  match v with
  | JStr s' => str_eqb s' (lit s)
  | _ => false
  end.

(* ------------------------------------------------------------------ *)
(** ** Data model *)

(** [BaseAIConfig], [OpenAIConfig] and [ClaudeConfig]: one shape. *)
Record BaseAIConfig := {
  apiKey : jsstring;
  baseURL : option jsstring;
  model : option jsstring;
  maxTokens : option Z;
  temperature : option float
}.

(** [Required<BaseAIConfig>]: the configuration a client holds. *)
Record RequiredConfig := {
  r_apiKey : jsstring;
  r_baseURL : jsstring;
  r_model : jsstring;
  r_maxTokens : Z;
  r_temperature : float
}.

(** [AIProviderConfig]; at run time the tag is a string. *)
Record AIProviderConfig := {
  provider : jsstring;
  config : BaseAIConfig
}.

Record CompletionRequest := {
  prompt : jsstring;
  context : option jsstring;
  language : option jsstring;
  maxSuggestions : option Z
}.

Inductive CompletionType := completion_t | suggestion_t | snippet_t.

Record CompletionSuggestion := {
  text : jsstring;
  confidence : option float;
  type : option CompletionType
}.

(** [CompletionResponse]; [model] is copied from the payload as it is.
    The [usage] record is left out: no property below reads it, and it is
    computed after the suggestions from reads that cannot throw. *)
Record CompletionResponse := {
  suggestions : list CompletionSuggestion;
  resp_model : jsval
}.

(* ------------------------------------------------------------------ *)
(** ** The network and the event trace *)

Record Message := { role : jsstring; content : jsstring }.

(** The body handed to [JSON.stringify], per provider. *)
Inductive WireBody :=
| ClaudeBody (model : jsstring) (max_tokens : Z) (temperature : float)
             (messages : list Message) (system : jsstring)
| OpenAIBody (model : jsstring) (messages : list Message) (max_tokens : Z)
             (temperature : float) (n : Z) (stop : list jsstring).

Record WireRequest := {
  url : jsstring;
  method : jsstring;
  headers : list (jsstring * jsstring);
  body : WireBody
}.

(** What [fetch] resolves to.  [json] is the parsed body, [None] when the
    body is not JSON and [response.json()] rejects. *)
Record Response := {
  status : Z;
  statusText : jsstring;
  json : option jsval
}.

(** [response.ok]: the status is in the range 200-299. *)
Definition ok (r : Response) : bool := (200 <=? status r)%Z && (status r <=? 299)%Z.

Inductive FetchOutcome :=
| Resolved (r : Response)
| Rejected (e : js_error).

Inductive event :=
| EvFetch (req : WireRequest)
| EvReadBody
| EvConsoleError (label : jsstring) (err : js_error).

(** An [async] method: it extends the trace and returns or throws. *)
Definition M (A : Type) := list event -> list event * completion A.

Definition mret {A} (a : A) : M A := fun t => (t, Returned a).
Definition mthrow {A} (e : js_error) : M A := fun t => (t, Thrown e).
Definition mbind {A B} (m : M A) (k : A -> M B) : M B :=
  fun t => match m t with
           | (t', Returned a) => k a t'
           | (t', Thrown e) => (t', Thrown e)
           end.
Definition mlift {A} (c : completion A) : M A := fun t => (t, c).
Definition emit (e : event) : M unit := fun t => (t ++ [e], Returned tt).

(** [try { body } catch (error) { handler }] *)
Definition try_catch {A} (body : M A) (handler : js_error -> M A) : M A :=
  fun t => match body t with
           | (t', Returned a) => (t', Returned a)
           | (t', Thrown e) => handler e t'
           end.

Notation "x <-- m ;;; k" := (mbind m (fun x => k))
  (at level 61, m at next level, right associativity).
Notation "m ;;; k" := (mbind m (fun _ => k))
  (at level 61, right associativity).

(** A method run from an empty trace. *)
Definition run {A} (m : M A) : list event * completion A := m [].

Definition is_fetch (e : event) : bool :=
  match e with EvFetch _ => true | _ => false end.
Definition is_read_body (e : event) : bool :=
  match e with EvReadBody => true | _ => false end.

(** The number of requests that went out. *)
Definition requests_sent (t : list event) : nat := List.length (filter is_fetch t).
Definition bodies_read (t : list event) : nat := List.length (filter is_read_body t).

(** [await fetch(url, init)]: the request goes out, then the promise
    settles as the network decides. *)
Definition await_fetch (fetch : WireRequest -> FetchOutcome) (req : WireRequest) : M Response :=
  emit (EvFetch req) ;;;
  match fetch req with
  | Resolved r => mret r
  | Rejected e => mthrow e
  end.

(** [await response.json()] *)
Definition await_json (r : Response) : M jsval :=
  emit EvReadBody ;;;
  match json r with
  | Some v => mret v
  | None => mthrow (NativeError SyntaxErrorC (lit "Unexpected token in JSON"))
  end.

(** [console.error(label, error)] *)
Definition console_error (label : string) (error : js_error) : M unit :=
  emit (EvConsoleError (lit label) error).

(** A [for (const x of items)] loop whose body pushes at most one
    suggestion and may throw. *)
Fixpoint pushEach (body : jsval -> completion (option CompletionSuggestion))
         (items : list jsval) (suggestions : list CompletionSuggestion)
  : completion (list CompletionSuggestion) :=
  match items with
  | [] => Returned suggestions
  | x :: rest =>
      r <- body x ;;
      pushEach body rest
        (match r with
         | Some s => suggestions ++ [s]
         | None => suggestions
         end)
  end.

(* ------------------------------------------------------------------ *)
(** ** [abstract class BaseAIClient] (src/ai-client.ts) *)

Module BaseAIClient.

Record t := { self_config : RequiredConfig; self_provider : jsstring }.

(** [validateConfig]; [this_provider] is [this.provider] at the time of
    the call.  The key is a string by its type, so the [typeof] test of
    the source is not taken. *)
Definition validateConfig (this_provider : option jsstring) (config : BaseAIConfig)
  : completion unit :=
  if negb (str_truthy (apiKey config)) || str_eqb (trim (apiKey config)) []
  then Thrown (AIClientError (lit "API key is required and must be a non-empty string")
                             this_provider None None)
  else if match temperature config with
          | Some x => PrimFloat.ltb x 0%float || PrimFloat.ltb 1%float x
          | None => false
          end
  then Thrown (AIClientError (lit "Temperature must be between 0.0 and 1.0")
                             this_provider None None)
  else if match maxTokens config with
          | Some k => (k <=? 0)%Z
          | None => false
          end
  then Thrown (AIClientError (lit "Max tokens must be a positive number")
                             this_provider None None)
  else Returned tt.

Definition validateRequest (self : t) (request : CompletionRequest) : completion unit :=
  if negb (str_truthy (prompt request)) || str_eqb (trim (prompt request)) []
  then Thrown (AIClientError (lit "Prompt is required and must be a non-empty string")
                             (Some (self_provider self)) None None)
  else if match maxSuggestions request with
          | Some k => (k <=? 0)%Z
          | None => false
          end
  then Thrown (AIClientError (lit "Max suggestions must be a positive number")
                             (Some (self_provider self)) None None)
  else Returned tt.

Definition buildPrompt (request : CompletionRequest) : jsstring :=
  let promptParts : list jsstring := [] in
  let promptParts :=
    match language request with
    | Some l => if str_truthy l then promptParts ++ [lit "Language: " ++ l] else promptParts
    | None => promptParts
    end in
  let promptParts :=
    match context request with
    | Some c => if str_truthy c then promptParts ++ [lit "Context:" ++ nl ++ c] else promptParts
    | None => promptParts
    end in
  let promptParts := promptParts ++ [lit "Complete the following code:" ++ nl ++ prompt request] in
  join (nl ++ nl) promptParts.

(** [handleError]; on a thrown [null] or [undefined] the two
    [instanceof] tests fail and reading [error.message] throws. *)
Definition handleError (self : t) (error : js_error) : completion js_error :=
  match error with
  | AIClientError _ _ _ _ => Returned error
  | NativeError cls message =>
      if match cls with TypeErrorC => true | _ => false end
         && includes (lit "fetch") message
      then Returned (AIClientError (lit "Network error: Unable to connect to AI service")
                                   (Some (self_provider self)) None (Some error))
      else Returned (AIClientError
                       (lit "Unexpected error: "
                        ++ (if str_truthy message then message else lit "Unknown error"))
                       (Some (self_provider self)) None (Some error))
  | ThrownNullish => Thrown cannot_read
  end.

Section Abstract.
(** The abstract methods, and the constant [AI_DEFAULTS.MAX_SUGGESTIONS]
    that [getCompletions] reads and the file does not declare: its value
    where a declaration is in scope, nothing where there is none and
    reading it throws a [ReferenceError]. *)
Variable normalizeConfig : BaseAIConfig -> RequiredConfig.
Variable callAPI : jsstring -> CompletionRequest -> M jsval.
Variable parseResponse : jsval -> Z -> completion CompletionResponse.
Variable AI_DEFAULTS_MAX_SUGGESTIONS : option Z.

(** Reading [AI_DEFAULTS.MAX_SUGGESTIONS]. *)
Definition readDefault : completion Z :=
  match AI_DEFAULTS_MAX_SUGGESTIONS with
  | Some d => Returned d
  | None => Thrown (NativeError ReferenceErrorC (lit "AI_DEFAULTS is not defined"))
  end.

(** The constructor: [this.provider] is assigned after validation, so
    a validation error carries no provider. *)
Definition constructor (config : BaseAIConfig) (provider : jsstring) : completion t :=
  _ <- validateConfig None config ;;
  Returned {| self_config := normalizeConfig config; self_provider := provider |}.

(** [request.maxSuggestions || AI_DEFAULTS.MAX_SUGGESTIONS]: the constant
    is read only when [maxSuggestions] is absent or 0. *)
Definition maxSuggestionsOrDefault (request : CompletionRequest) : completion Z :=
  match maxSuggestions request with
  | Some k => if int_truthy k then Returned k else readDefault
  | None => readDefault
  end.

Definition getCompletions (self : t) (request : CompletionRequest) : M CompletionResponse :=
  try_catch
    (mlift (validateRequest self request) ;;;
     let prompt := buildPrompt request in
     apiResponse <-- callAPI prompt request ;;;
     k <-- mlift (maxSuggestionsOrDefault request) ;;;
     mlift (parseResponse apiResponse k))
    (fun error =>
       normalized <-- mlift (handleError self error) ;;;
       mthrow normalized).
End Abstract.

End BaseAIClient.

(** The system instruction both clients send. *)
Definition SYSTEM_INSTRUCTION : jsstring :=
  lit "You are a code completion assistant. Provide helpful code completions based on the context. Return only the completion text without explanations.".

(** [buildPrompt] of [ClaudeClient] and of [OpenAIClient], in
    src/ai-client.ts and in lib/index.js: the same text in all three. *)
Definition concatPrompt (request : CompletionRequest) : jsstring :=
  let p : jsstring := [] in
  let p :=
    match language request with
    | Some l => if str_truthy l then p ++ (lit "Language: " ++ l ++ nl) else p
    | None => p
    end in
  let p :=
    match context request with
    | Some c => if str_truthy c then p ++ (lit "Context:" ++ nl ++ c ++ nl ++ nl) else p
    | None => p
    end in
  p ++ (lit "Complete the following code:" ++ nl ++ prompt request).

(** The constructor body of [ClaudeClient] and [OpenAIClient]: each
    optional field falls back to the provider's default with [||]. *)
Definition fillDefaults (config : BaseAIConfig) (defaultURL defaultModel : string)
  : RequiredConfig :=
  {| r_apiKey := apiKey config;
     r_baseURL := or_str (baseURL config) (lit defaultURL);
     r_model := or_str (model config) (lit defaultModel);
     r_maxTokens := or_int (maxTokens config) 100;
     r_temperature := or_num (temperature config) 0.3%float |}.

(* ------------------------------------------------------------------ *)
(** ** [export class ClaudeClient] (src/ai-client.ts) *)

Module ClaudeClient.

Record t := { self_config : RequiredConfig }.

Definition constructor (config : BaseAIConfig) : t :=
  {| self_config :=
       fillDefaults config "https://api.anthropic.com" "claude-3-haiku-20240307" |}.

Definition buildPrompt (request : CompletionRequest) : jsstring :=
  concatPrompt request.

(** The inner [for] loop: one suggestion per index below
    [Math.min(lines.length, maxSuggestions)]. *)
Definition pushLines (lines : list jsstring) (maxSuggestions : Z)
  : list CompletionSuggestion :=
  let numSuggestions := Z.min (Z.of_nat (List.length lines)) maxSuggestions in
  map (fun i =>
         {| text := trim (nth i lines []);
            confidence := Some (0.9 - float_of_index i * 0.1)%float;
            type := Some completion_t |})
      (seq 0 (Z.to_nat numSuggestions)).

(** The loop over [data.content]; it stops at the first block of type
    ['text'] whose trimmed text is not empty. *)
Fixpoint scanContent (items : list jsval) (maxSuggestions : Z)
  : completion (list CompletionSuggestion) :=
  match items with
  | [] => Returned []
  | content :: rest =>
      ty <- getProp content "type" ;;
      if is_str ty "text" then
        tx <- getProp content "text" ;;
        if truthy tx then
          text <- callTrim tx ;;
          if str_truthy text then
            let lines := filter (fun line => str_truthy (trim line)) (split_lines text) in
            Returned (pushLines lines maxSuggestions)
          else scanContent rest maxSuggestions
        else scanContent rest maxSuggestions
      else scanContent rest maxSuggestions
  end.

(** The fallback after the loop: with no suggestion so far and a truthy
    [data.content[0].text], that text alone. *)
Definition fallback (c : jsval) (suggestions : list CompletionSuggestion)
  : completion (list CompletionSuggestion) :=
  match suggestions with
  | _ :: _ => Returned suggestions
  | [] =>
      if truthy c then
        c0 <- getIndex0 c ;;
        if truthy c0 then
          t0 <- getProp c0 "text" ;;
          if truthy t0 then
            whole <- callTrim t0 ;;
            Returned [ {| text := whole;
                          confidence := Some 0.9%float;
                          type := Some completion_t |} ]
          else Returned suggestions
        else Returned suggestions
      else Returned suggestions
  end.

Definition parseResponse (data : jsval) (maxSuggestions : Z) : completion CompletionResponse :=
  c <- getProp data "content" ;;
  suggestions <-
    (if truthy c then
       match asArray c with
       | Some items => scanContent items maxSuggestions
       | None => Returned []
       end
     else Returned []) ;;
  suggestions <- fallback c suggestions ;;
  m <- getProp data "model" ;;
  Returned {| suggestions := suggestions; resp_model := m |}.

Definition wireRequest (self : t) (request : CompletionRequest) : WireRequest :=
  {| url := r_baseURL (self_config self) ++ lit "/v1/messages";
     method := lit "POST";
     headers := [ (lit "Content-Type", lit "application/json");
                  (lit "x-api-key", r_apiKey (self_config self));
                  (lit "anthropic-version", lit "2023-06-01") ];
     body := ClaudeBody (r_model (self_config self))
                        (r_maxTokens (self_config self))
                        (r_temperature (self_config self))
                        [ {| role := lit "user"; content := buildPrompt request |} ]
                        SYSTEM_INSTRUCTION |}.

Section Network.
Variable fetch : WireRequest -> FetchOutcome.

Definition getCompletions (self : t) (request : CompletionRequest) : M CompletionResponse :=
  try_catch
    (response <-- await_fetch fetch (wireRequest self request) ;;;
     if negb (ok response) then
       mthrow (NativeError ErrorC
                 (lit "Claude API error: " ++ decimal (status response)
                  ++ lit " " ++ statusText response))
     else
       data <-- await_json response ;;;
       mlift (parseResponse data (or_int (maxSuggestions request) 3)))
    (fun error =>
       console_error "Error getting Claude completions:" error ;;;
       mthrow error).
End Network.

End ClaudeClient.

(* ------------------------------------------------------------------ *)
(** ** [export class OpenAIClient] (src/ai-client.ts) *)

Module OpenAIClient.

Record t := { self_config : RequiredConfig }.

Definition constructor (config : BaseAIConfig) : t :=
  {| self_config := fillDefaults config "https://api.openai.com/v1" "gpt-3.5-turbo" |}.

Definition buildPrompt (request : CompletionRequest) : jsstring :=
  concatPrompt request.

(** The body of the loop over [data.choices]. *)
Definition pushChoice (choice : jsval) : completion (option CompletionSuggestion) :=
  message <- getProp choice "message" ;;
  if truthy message then
    c <- getProp message "content" ;;
    if truthy c then
      text <- callTrim c ;;
      if str_truthy text then
        Returned (Some {| text := text; confidence := None; type := Some completion_t |})
      else Returned None
    else Returned None
  else Returned None.

Definition parseResponse (data : jsval) : completion CompletionResponse :=
  choices <- getProp data "choices" ;;
  suggestions <-
    (if truthy choices then
       match asArray choices with
       | Some items => pushEach pushChoice items []
       | None => Returned []
       end
     else Returned []) ;;
  m <- getProp data "model" ;;
  Returned {| suggestions := suggestions; resp_model := m |}.

Definition wireRequest (self : t) (request : CompletionRequest) : WireRequest :=
  {| url := r_baseURL (self_config self) ++ lit "/chat/completions";
     method := lit "POST";
     headers := [ (lit "Content-Type", lit "application/json");
                  (lit "Authorization", lit "Bearer " ++ r_apiKey (self_config self)) ];
     body := OpenAIBody (r_model (self_config self))
                        [ {| role := lit "system"; content := SYSTEM_INSTRUCTION |};
                          {| role := lit "user"; content := buildPrompt request |} ]
                        (r_maxTokens (self_config self))
                        (r_temperature (self_config self))
                        (or_int (maxSuggestions request) 3)
                        [ nl ++ nl; lit "```" ] |}.

Section Network.
Variable fetch : WireRequest -> FetchOutcome.

Definition getCompletions (self : t) (request : CompletionRequest) : M CompletionResponse :=
  try_catch
    (response <-- await_fetch fetch (wireRequest self request) ;;;
     if negb (ok response) then
       mthrow (NativeError ErrorC
                 (lit "OpenAI API error: " ++ decimal (status response)
                  ++ lit " " ++ statusText response))
     else
       data <-- await_json response ;;;
       mlift (parseResponse data))
    (fun error =>
       console_error "Error getting AI completions:" error ;;;
       mthrow error).
End Network.

(** The body of the loop over [data.choices] in [parseLegacyResponse]:
    the text sits in [choice.text]. *)
Definition pushLegacyChoice (choice : jsval) : completion (option CompletionSuggestion) :=
  t <- getProp choice "text" ;;
  if truthy t then
    text <- callTrim t ;;
    if str_truthy text then
      Returned (Some {| text := text; confidence := None; type := Some completion_t |})
    else Returned None
  else Returned None.

Definition parseLegacyResponse (data : jsval) : completion CompletionResponse :=
  choices <- getProp data "choices" ;;
  suggestions <-
    (if truthy choices then
       match asArray choices with
       | Some items => pushEach pushLegacyChoice items []
       | None => Returned []
       end
     else Returned []) ;;
  m <- getProp data "model" ;;
  Returned {| suggestions := suggestions; resp_model := m |}.

End OpenAIClient.

(* ------------------------------------------------------------------ *)
(** ** The built bundle (lib/index.js): [OpenAIClient] with confidence *)

Module LibOpenAIClient.

Definition calculateConfidence (choice : jsval) : completion float :=
  r <- getProp choice "finish_reason" ;;
  if is_str r "stop" then Returned 0.9%float
  else if is_str r "length" then Returned 0.7%float
  else Returned 0.5%float.

Definition pushChoice (choice : jsval) : completion (option CompletionSuggestion) :=
  message <- getProp choice "message" ;;
  if truthy message then
    c <- getProp message "content" ;;
    if truthy c then
      text <- callTrim c ;;
      if str_truthy text then
        conf <- calculateConfidence choice ;;
        Returned (Some {| text := text; confidence := Some conf; type := Some completion_t |})
      else Returned None
    else Returned None
  else Returned None.

Definition parseResponse (data : jsval) : completion CompletionResponse :=
  choices <- getProp data "choices" ;;
  suggestions <-
    (if truthy choices then
       match asArray choices with
       | Some items => pushEach pushChoice items []
       | None => Returned []
       end
     else Returned []) ;;
  m <- getProp data "model" ;;
  Returned {| suggestions := suggestions; resp_model := m |}.

Definition pushLegacyChoice (choice : jsval) : completion (option CompletionSuggestion) :=
  t <- getProp choice "text" ;;
  if truthy t then
    text <- callTrim t ;;
    if str_truthy text then
      conf <- calculateConfidence choice ;;
      Returned (Some {| text := text; confidence := Some conf; type := Some completion_t |})
    else Returned None
  else Returned None.

Definition parseLegacyResponse (data : jsval) : completion CompletionResponse :=
  choices <- getProp data "choices" ;;
  suggestions <-
    (if truthy choices then
       match asArray choices with
       | Some items => pushEach pushLegacyChoice items []
       | None => Returned []
       end
     else Returned []) ;;
  m <- getProp data "model" ;;
  Returned {| suggestions := suggestions; resp_model := m |}.

End LibOpenAIClient.

(* ------------------------------------------------------------------ *)
(** ** The factory (src/ai-client.ts) *)

Inductive AIClient :=
| IsClaude (c : ClaudeClient.t)
| IsOpenAI (c : OpenAIClient.t).

Definition createAIClient (providerConfig : AIProviderConfig) : completion AIClient :=
  if str_eqb (provider providerConfig) (lit "claude")
  then Returned (IsClaude (ClaudeClient.constructor (config providerConfig)))
  else Returned (IsOpenAI (OpenAIClient.constructor (config providerConfig))).

(** The configuration a client ends up holding. *)
Definition client_config (c : AIClient) : RequiredConfig :=
  match c with
  | IsClaude c => ClaudeClient.self_config c
  | IsOpenAI c => OpenAIClient.self_config c
  end.

(** [client.getCompletions(request)] through the union type. *)
Definition getCompletions (fetch : WireRequest -> FetchOutcome) (c : AIClient)
           (request : CompletionRequest) : M CompletionResponse :=
  match c with
  | IsClaude c => ClaudeClient.getCompletions fetch c request
  | IsOpenAI c => OpenAIClient.getCompletions fetch c request
  end.

(* ------------------------------------------------------------------ *)
(** ** The workspace settings (src/ai-client.ts) *)

(** [workspace.getConfiguration('coc-agent')] of coc.nvim, seen through
    the three types the program reads settings at.  A lookup gives the
    configured value, or nothing when the key is not set. *)
Record WorkspaceConfiguration := {
  getString : string -> option jsstring;
  getInt : string -> option Z;
  getNumber : string -> option float
}.

(** The fields [<prefix>.apiKey], [<prefix>.baseURL], ... read into a
    configuration; nothing when the key is missing or empty. *)
Definition readProviderConfig (cfg : WorkspaceConfiguration) (tag prefix : string)
  : option AIProviderConfig :=
  match getString cfg (prefix ++ ".apiKey") with
  | None => None
  | Some key =>
      if negb (str_truthy key) then None
      else Some {| provider := lit tag;
                   config := {| apiKey := key;
                                baseURL := getString cfg (prefix ++ ".baseURL");
                                model := getString cfg (prefix ++ ".model");
                                maxTokens := getInt cfg (prefix ++ ".maxTokens");
                                temperature := getNumber cfg (prefix ++ ".temperature") |} |}
  end.

(** [getAIConfigFromWorkspace]; [workspace] is what
    [require('coc.nvim')] and [getConfiguration] come to: the settings, or
    the error they throw. *)
Definition getAIConfigFromWorkspace (workspace : completion WorkspaceConfiguration)
  : M (option AIProviderConfig) :=
  try_catch
    (cfg <-- mlift workspace ;;;
     let provider :=
       match getString cfg "provider" with
       | Some p => p
       | None => lit "openai"
       end in
     if str_eqb provider (lit "claude")
     then mret (readProviderConfig cfg "claude" "claude")
     else mret (readProviderConfig cfg "openai" "openai"))
    (fun error =>
       console_error "Error getting AI config from workspace:" error ;;;
       mret None).

(* ------------------------------------------------------------------ *)
(** ** The completion source (src/index.ts) *)

(** [initializeAIClient]: the new value of the module variable
    [aiClient].  The information message it shows is not an event of the
    trace. *)
Definition initializeAIClient (workspace : completion WorkspaceConfiguration)
  : M (option AIClient) :=
  config <-- getAIConfigFromWorkspace workspace ;;;
  match config with
  | Some config => aiClient <-- mlift (createAIClient config) ;;; mret (Some aiClient)
  | None => mret None
  end.

(** [lines.slice(start, end)] with its treatment of negative and of
    out-of-range bounds. *)
Definition slice {A : Type} (l : list A) (start stop : Z) : list A :=
  let len := Z.of_nat (List.length l) in
  let k := if (start <? 0)%Z then Z.max (len + start) 0 else Z.min start len in
  let final := if (stop <? 0)%Z then Z.max (len + stop) 0 else Z.min stop len in
  firstn (Z.to_nat (final - k)) (skipn (Z.to_nat k) l).

(** The part of the completion option the source reads: the document
    text and language, the cursor line and the typed input. *)
Record CompleteOption := {
  doc_text : jsstring;
  languageId : jsstring;
  position_line : Z;
  input : jsstring
}.

(** The argument [opt] of the completion source, typed [any]: an option
    with its document, or one whose [document] is [null] or [undefined]. *)
Inductive AnyOption :=
| WithDocument (opt : CompleteOption)
| WithoutDocument.

(** [getContextFromDocument]: five lines before and after the cursor.
    On a document and a position of their types nothing in the body
    throws, so the [catch] branch is not taken; it is taken on a missing
    document, see [getAICompletions]. *)
Definition getContextFromDocument (document_text : jsstring) (line : Z) : jsstring :=
  let lines := split_lines document_text in
  let currentLine := line in
  let startLine := Z.max 0 (currentLine - 5) in
  let endLine := Z.min (Z.of_nat (List.length lines) - 1) (currentLine + 5) in
  let contextLines := slice lines startLine (endLine + 1) in
  join nl contextLines.

(** A completion item as [getAICompletions] builds it. *)
Record CompleteItem := {
  word : jsstring;
  menu : jsstring;
  kind : jsstring;
  sortText : jsstring;
  detail : jsstring
}.

(** [items.map((x, index) => f(x, index))] *)
Fixpoint mapi {A B : Type} (f : A -> nat -> B) (index : nat) (l : list A) : list B :=
  match l with
  | [] => []
  | x :: rest => f x index :: mapi f (S index) rest
  end.

Section CompletionSource.
(** The network, and the two conversions to text that JavaScript does
    inside the template strings: of [Math.round(confidence * 100)] and of
    a truthy [response.model] that is not a string. *)
Variable fetch : WireRequest -> FetchOutcome.
Variable roundedPercent : float -> jsstring.
Variable textOf : jsval -> jsstring.

Definition toItem (response : CompletionResponse) (suggestion : CompletionSuggestion)
           (index : nat) : CompleteItem :=
  {| word := text suggestion;
     menu := lit "[AI-"
             ++ match confidence suggestion with
                | Some c => if num_truthy c then roundedPercent c else lit "50"
                | None => lit "50"
                end
             ++ lit "%]";
     kind := lit "Text";
     sortText := lit "0" ++ decimal (Z.of_nat index);
     detail := lit "AI suggestion ("
               ++ (if truthy (resp_model response)
                   then match resp_model response with
                        | JStr s => s
                        | v => textOf v
                        end
                   else lit "unknown")
               ++ lit ")" |}.

(** The request the completion source sends for an option. *)
Definition requestOf (opt : CompleteOption) : CompletionRequest :=
  {| prompt := input opt;
     context := Some (getContextFromDocument (doc_text opt) (position_line opt));
     language := Some (languageId opt);
     maxSuggestions := Some 3%Z |}.

(** [getAICompletions].  Without a document, [getContextFromDocument]
    catches the [TypeError] of [document.textDocument], logs it and gives
    the empty context; reading [document.languageId] then throws in the
    body, before any request is built. *)
Definition getAICompletions (aiClient : option AIClient) (opt : AnyOption)
  : M (list CompleteItem) :=
  match aiClient with
  | None => mret []
  | Some client =>
      try_catch
        (match opt with
         | WithDocument opt =>
             response <-- getCompletions fetch client (requestOf opt) ;;;
             mret (mapi (toItem response) 0 (suggestions response))
         | WithoutDocument =>
             console_error "Error getting context from document:" cannot_read ;;;
             mthrow cannot_read
         end)
        (fun error =>
           console_error "Error in getAICompletions:" error ;;;
           mret [])
  end.

(** [getCompletionItems]; [aiEnabled] is the setting [ai.enabled], and
    [opt] is absent when the argument is falsy. *)
Definition getCompletionItems (aiEnabled : bool) (aiClient : option AIClient)
           (opt : option AnyOption) : M (list CompleteItem) :=
  let items : list CompleteItem := [] in
  match aiEnabled, aiClient, opt with
  | true, Some _, Some opt =>
      try_catch
        (aiItems <-- getAICompletions aiClient opt ;;;
         mret (items ++ aiItems))
        (fun error =>
           console_error "Error getting AI completions:" error ;;;
           mret items)
  | _, _, _ => mret items
  end.
End CompletionSource.

(* ------------------------------------------------------------------ *)
(** ** Vocabulary of the properties *)

(** Empty or whitespace-only. *)
Definition blank (s : jsstring) : bool := forallb isWhiteSpace s.

(** Present and not empty: what the guards [if (request.language)] and
    [if (request.context)] let through. *)
Definition supplied (x : option jsstring) : option jsstring :=
  match x with
  | Some (c :: s) => Some (c :: s)
  | _ => None
  end.

(** The sections of a prompt in their fixed order, as the specification
    lists them: the language line, the context block, the request. *)
Definition promptSections (request : CompletionRequest) : list jsstring :=
  match supplied (language request) with
  | Some l => [lit "Language: " ++ l]
  | None => []
  end
  ++ match supplied (context request) with
     | Some c => [lit "Context:" ++ nl ++ c]
     | None => []
     end
  ++ [lit "Complete the following code:" ++ nl ++ prompt request].

(** The sections with the separator that follows each one, as
    [ClaudeClient] and [OpenAIClient] write them: a single line feed
    after the language line, a blank line after the context block. *)
Definition promptSectionsTerminated (request : CompletionRequest) : list jsstring :=
  match supplied (language request) with
  | Some l => [lit "Language: " ++ l ++ nl]
  | None => []
  end
  ++ match supplied (context request) with
     | Some c => [lit "Context:" ++ nl ++ c ++ nl ++ nl]
     | None => []
     end
  ++ [lit "Complete the following code:" ++ nl ++ prompt request].

(** The name a client puts in front of its HTTP error message, and the
    label it logs with. *)
Definition apiName (c : AIClient) : string :=
  match c with
  | IsClaude _ => "Claude"
  | IsOpenAI _ => "OpenAI"
  end.

Definition logLabel (c : AIClient) : string :=
  match c with
  | IsClaude _ => "Error getting Claude completions:"
  | IsOpenAI _ => "Error getting AI completions:"
  end.

Definition wireRequestOf (c : AIClient) (request : CompletionRequest) : WireRequest :=
  match c with
  | IsClaude c => ClaudeClient.wireRequest c request
  | IsOpenAI c => OpenAIClient.wireRequest c request
  end.

(** The error both clients throw on a response that is not ok. *)
Definition httpError (c : AIClient) (r : Response) : js_error :=
  NativeError ErrorC
    (lit (apiName c) ++ lit " API error: " ++ decimal (status r) ++ lit " " ++ statusText r).

(** The wire parameter [n] of an OpenAI request body. *)
Definition wire_n (b : WireBody) : option Z :=
  match b with
  | OpenAIBody _ _ _ _ n _ => Some n
  | ClaudeBody _ _ _ _ _ => None
  end.

(** A content block the Claude loop passes over: it is not [null], and
    it is not a block of type ['text'] with a truthy text, unless that
    text is a whitespace-only string. *)
Definition passedOver (b : jsval) : bool :=
  match b with
  | JUndefined | JNull => false
  | JObj props =>
      negb (is_str (lookup (lit "type") props) "text")
      || negb (truthy (lookup (lit "text") props))
      || match lookup (lit "text") props with
         | JStr s => blank s
         | _ => false
         end
  | _ => true
  end.

(** A block [{ type: 'text', text: t, ... }]. *)
Definition isTextBlock (b : jsval) (t : jsstring) : bool :=
  match b with
  | JObj props =>
      is_str (lookup (lit "type") props) "text"
      && match lookup (lit "text") props with
         | JStr s => str_eqb s t
         | _ => false
         end
  | _ => false
  end.

(** Suggestions numbered from 0 with the confidence [0.9 - 0.1 * i]. *)
Fixpoint numbered (i : nat) (lines : list jsstring) : list CompletionSuggestion :=
  match lines with
  | [] => []
  | line :: rest =>
      {| text := trim line;
         confidence := Some (0.9 - float_of_index i * 0.1)%float;
         type := Some completion_t |} :: numbered (S i) rest
  end.

(** The non-empty lines of a text. *)
Definition nonEmptyLines (t : jsstring) : list jsstring :=
  filter (fun line => negb (blank line)) (split_lines t).

(** A choices entry that carries a non-empty message body. *)
Definition carriesText (choice : jsval) : bool :=
  match choice with
  | JObj props =>
      match lookup (lit "message") props with
      | JObj mprops =>
          match lookup (lit "content") mprops with
          | JStr s => negb (blank s)
          | _ => false
          end
      | _ => false
      end
  | _ => false
  end.

(** A choices entry the OpenAI loop can read: not [null], and a truthy
    [message.content], when there is one, is a string. *)
Definition readableChoice (choice : jsval) : bool :=
  match choice with
  | JUndefined | JNull => false
  | JObj props =>
      match lookup (lit "message") props with
      | JObj mprops =>
          match lookup (lit "content") mprops with
          | JStr _ => true
          | v => negb (truthy v)
          end
      | _ => true
      end
  | _ => true
  end.

(** The entries of [data.choices] the OpenAI loop runs over: none when
    the property is not an array. *)
Definition choicesOf (data : jsval) : list jsval :=
  match data with
  | JObj props =>
      match lookup (lit "choices") props with
      | JArr items => items
      | _ => []
      end
  | _ => []
  end.

(** A payload whose properties can be read: anything but [null]. *)
Definition readableBody (data : jsval) : bool :=
  match data with
  | JUndefined | JNull => false
  | _ => true
  end.

(** Whether a confidence lies in the documented range. *)
Definition in_unit_interval (x : float) : bool :=
  PrimFloat.leb 0%float x && PrimFloat.leb x 1%float.

(** The messages of the validators. *)
Definition KEY_REQUIRED : jsstring :=
  lit "API key is required and must be a non-empty string".

Definition PROMPT_REQUIRED : jsstring :=
  lit "Prompt is required and must be a non-empty string".

Definition SUGGESTIONS_POSITIVE : jsstring :=
  lit "Max suggestions must be a positive number".

Definition TEMPERATURE_RANGE : jsstring :=
  lit "Temperature must be between 0.0 and 1.0".

(* ------------------------------------------------------------------ *)
(** ** Sample inputs *)

Definition txt (s : string) : jsval := JStr (lit s).

Definition obj (fields : list (string * jsval)) : jsval :=
  JObj (map (fun kv => (lit (fst kv), snd kv)) fields).

Definition sampleConfig (key : string) (temp : option float) : BaseAIConfig :=
  {| apiKey := lit key; baseURL := None; model := None;
     maxTokens := None; temperature := temp |}.

Definition sampleRequest (p : string) (lang : option string) (k : option Z)
  : CompletionRequest :=
  {| prompt := lit p; context := None;
     language := option_map lit lang; maxSuggestions := k |}.

(** A network that answers every request the same way. *)
Definition answering (st : Z) (reason : string) (payload : option jsval)
  : WireRequest -> FetchOutcome :=
  fun _ => Resolved {| status := st; statusText := lit reason; json := payload |}.

(** [{ choices: [{ message: { content: "foo" }, finish_reason: "stop" }] }] *)
Definition fooStop : jsval :=
  obj [("choices",
        JArr [obj [("message", obj [("content", txt "foo")]);
                   ("finish_reason", txt "stop")]])]%string.

(** [{ type: "text", text: t }] *)
Definition textBlock (t : jsstring) : jsval :=
  obj [("type", txt "text"); ("text", JStr t)]%string.

(** [{ content: [{ type: "text", text: t }] }] *)
Definition oneTextBlockProps (t : jsstring) : list (jsstring * jsval) :=
  [(lit "content", JArr [textBlock t])].

Definition oneTextBlock (t : jsstring) : jsval := JObj (oneTextBlockProps t).

Definition abcLines : jsstring := lit "a" ++ nl ++ lit "b" ++ nl ++ lit "c".

(** Eleven one-letter lines. *)
Definition elevenLines : jsstring :=
  join nl (repeat (lit "x") 11).

(** Two choices with text, for a request that asks for one. *)
Definition twoChoices : jsval :=
  obj [("choices",
        JArr [obj [("message", obj [("content", txt "foo")])];
              obj [("message", obj [("content", txt "bar")])]])]%string.

(** What [validateConfig] lets through. *)
Definition configAcceptable (cfg : BaseAIConfig) : bool :=
  negb (blank (apiKey cfg))
  && match temperature cfg with
     | Some x => negb (PrimFloat.ltb x 0%float || PrimFloat.ltb 1%float x)
     | None => true
     end
  && match maxTokens cfg with
     | Some k => (0 <? k)%Z
     | None => true
     end.

(** What [validateRequest] lets through. *)
Definition requestAcceptable (request : CompletionRequest) : bool :=
  negb (blank (prompt request))
  && match maxSuggestions request with
     | Some k => (0 <? k)%Z
     | None => true
     end.

(** A held configuration read back as a constructor argument. *)
Definition asConfig (rc : RequiredConfig) : BaseAIConfig :=
  {| apiKey := r_apiKey rc;
     baseURL := Some (r_baseURL rc);
     model := Some (r_model rc);
     maxTokens := Some (r_maxTokens rc);
     temperature := Some (r_temperature rc) |}.

(** A network that refuses every request with the same error. *)
Definition refusing (e : js_error) : WireRequest -> FetchOutcome :=
  fun _ => Rejected e.

(** The error of [response.json()] on a body that is not JSON. *)
Definition JSON_ERROR : js_error :=
  NativeError SyntaxErrorC (lit "Unexpected token in JSON").

(** The parser a client runs on the body of a request. *)
Definition parseOf (c : AIClient) (request : CompletionRequest) (data : jsval)
  : completion CompletionResponse :=
  match c with
  | IsClaude _ => ClaudeClient.parseResponse data (or_int (maxSuggestions request) 3)
  | IsOpenAI _ => OpenAIClient.parseResponse data
  end.

(** The last event of a trace. *)
Definition lastEvent (t : list event) : option event := nth_error (rev t) 0.

(** What a held configuration must satisfy to be usable on the wire. *)
Definition filledIn (rc : RequiredConfig) : bool :=
  str_truthy (r_baseURL rc) && str_truthy (r_model rc)
  && int_truthy (r_maxTokens rc) && num_truthy (r_temperature rc).

(** The message content of a choices entry that carries text. *)
Definition choiceContent (choice : jsval) : jsstring :=
  match choice with
  | JObj props =>
      match lookup (lit "message") props with
      | JObj mprops =>
          match lookup (lit "content") mprops with
          | JStr s => s
          | _ => []
          end
      | _ => []
      end
  | _ => []
  end.

(** The [model] property of a payload, as the parsers copy it. *)
Definition modelOf (data : jsval) : jsval :=
  match data with
  | JObj props => lookup (lit "model") props
  | _ => JUndefined
  end.

(** The suggestion the parser of src/ai-client.ts makes of an entry. *)
Definition plainSuggestion (content : jsstring) : CompletionSuggestion :=
  {| text := trim content; confidence := None; type := Some completion_t |}.

(** The confidence lib/index.js gives an entry by its finish reason. *)
Definition confidenceOf (choice : jsval) : float :=
  match choice with
  | JObj props =>
      if is_str (lookup (lit "finish_reason") props) "stop" then 0.9%float
      else if is_str (lookup (lit "finish_reason") props) "length" then 0.7%float
      else 0.5%float
  | _ => 0.5%float
  end.

(** A legacy choices entry [{ text: s, ... }] with a non-empty trimmed
    text, the text itself, and the entries the legacy loop can read. *)
Definition carriesLegacyText (choice : jsval) : bool :=
  match choice with
  | JObj props =>
      match lookup (lit "text") props with
      | JStr s => negb (blank s)
      | _ => false
      end
  | _ => false
  end.

Definition legacyText (choice : jsval) : jsstring :=
  match choice with
  | JObj props =>
      match lookup (lit "text") props with
      | JStr s => s
      | _ => []
      end
  | _ => []
  end.

Definition readableLegacyChoice (choice : jsval) : bool :=
  match choice with
  | JUndefined | JNull => false
  | JObj props =>
      match lookup (lit "text") props with
      | JStr _ => true
      | v => negb (truthy v)
      end
  | _ => true
  end.

(** The one suggestion of the Claude fallback. *)
Definition wholeText (t : jsstring) : CompletionSuggestion :=
  {| text := trim t; confidence := Some 0.9%float; type := Some completion_t |}.

(** [{ choices: [{ text: " foo " }, { text: "" }, { text: "bar" }] }] *)
Definition legacySample : jsval :=
  obj [("choices",
        JArr [obj [("text", txt " foo ")];
              obj [("text", txt "")];
              obj [("text", txt "bar")]])]%string.

(** Three choices that finish in three ways, the middle one blank. *)
Definition mixedChoices : jsval :=
  obj [("choices",
        JArr [obj [("message", obj [("content", txt "foo")]);
                   ("finish_reason", txt "length")];
              obj [("message", obj [("content", txt "  ")]);
                   ("finish_reason", txt "stop")];
              obj [("message", obj [("content", txt "bar")])]])]%string.

(** A suggestion text as the OpenAI parsers leave it: not empty, and
    with no whitespace at either end. *)
Definition cleanText (s : CompletionSuggestion) : Prop :=
  text s <> [] /\ trim (text s) = text s.

(** Whether a client is a [ClaudeClient]. *)
Definition isClaude (c : AIClient) : bool :=
  match c with
  | IsClaude _ => true
  | IsOpenAI _ => false
  end.

(** Settings given as lists of pairs, for examples. *)
Definition settingsOf (strings : list (string * string)) : WorkspaceConfiguration :=
  {| getString := fun k =>
       match find (fun kv => String.eqb (fst kv) k) strings with
       | Some kv => Some (lit (snd kv))
       | None => None
       end;
     getInt := fun _ => None;
     getNumber := fun _ => None |}.

(** Settings that name the provider ["bard"] and hold both keys. *)
Definition bardSettings : WorkspaceConfiguration :=
  settingsOf [("provider", "bard"); ("openai.apiKey", "sk-openai");
              ("claude.apiKey", "sk-claude")]%string.

(** A document of three lines. *)
Definition threeLines : jsstring := lit "let a = 1;" ++ nl ++ lit "let b = 2;" ++ nl ++ lit "a +".

(** A completion option on the last line of [threeLines]. *)
Definition sampleOption : CompleteOption :=
  {| doc_text := threeLines; languageId := lit "typescript";
     position_line := 2; input := lit "a +" |}.

(** The label [getAICompletions] logs with. *)
Definition SOURCE_LABEL : jsstring := lit "Error in getAICompletions:".

(** The block the specification reads for the Claude parser: the first
    one of type ['text'], whatever its text is. *)
Fixpoint firstTextBlock (blocks : list jsval) : option jsstring :=
  match blocks with
  | [] => None
  | JObj props :: rest =>
      if is_str (lookup (lit "type") props) "text"
      then match lookup (lit "text") props with
           | JStr t => Some t
           | _ => Some []
           end
      else firstTextBlock rest
  | _ :: rest => firstTextBlock rest
  end.

(** The suggestions in the specification's words: the non-empty lines of
    the first text block, capped at [maxSuggestions], numbered from 0. *)
Definition claimedClaudeSuggestions (blocks : list jsval) (maxSuggestions : Z)
  : list CompletionSuggestion :=
  match firstTextBlock blocks with
  | Some t => numbered 0 (firstn (Z.to_nat maxSuggestions) (nonEmptyLines t))
  | None => []
  end.

(** [[{ type: "text", text: "   " }, { type: "text", text: "a\nb" }]] *)
Definition blankThenLines : list jsval :=
  [textBlock (lit "   "); textBlock (lit "a" ++ nl ++ lit "b")].

(* ------------------------------------------------------------------ *)
(** * Properties *)

(** ** Strings *)

Lemma str_eqb_eq (a b : jsstring) : str_eqb a b = true <-> a = b.
Proof.
  unfold str_eqb. destruct (list_eq_dec N.eq_dec a b); split; congruence.
Qed.

Lemma str_eqb_nil (s : jsstring) : str_eqb s [] = negb (str_truthy s).
Proof. destruct s; reflexivity. Qed.

Lemma trimStart_nil_iff (s : jsstring) : trimStart s = [] <-> blank s = true.
Proof.
  induction s as [|c s IH]; simpl.
  - tauto.
  - destruct (isWhiteSpace c); simpl; [exact IH | split; discriminate].
Qed.

(** What [trimStart] leaves is empty or starts with a visible unit. *)
Lemma trimStart_head (s : jsstring) :
  trimStart s = [] \/ exists c r, trimStart s = c :: r /\ isWhiteSpace c = false.
Proof.
  induction s as [|c s IH]; simpl.
  - now left.
  - destruct (isWhiteSpace c) eqn:E; [exact IH | right; eauto].
Qed.

Lemma blank_app (a b : jsstring) : blank (a ++ b) = blank a && blank b.
Proof. apply forallb_app. Qed.

Lemma blank_rev (s : jsstring) : blank (rev s) = blank s.
Proof.
  induction s as [|c s IH]; simpl; [reflexivity|].
  rewrite blank_app, IH. simpl. rewrite andb_true_r. apply andb_comm.
Qed.

(** Trimming gives the empty string exactly on the blank strings. *)
Lemma trim_nil_iff (s : jsstring) : trim s = [] <-> blank s = true.
Proof.
  unfold trim, trimEnd. split; intros H.
  - assert (H1 : trimStart (rev (trimStart s)) = []).
    { destruct (trimStart (rev (trimStart s))) as [|c l]; [reflexivity|].
      simpl in H. destruct (rev l); discriminate. }
    apply trimStart_nil_iff in H1. rewrite blank_rev in H1.
    destruct (trimStart_head s) as [E | (c & r & E & Hc)].
    + now apply trimStart_nil_iff.
    + rewrite E in H1. simpl in H1. now rewrite Hc in H1.
  - apply trimStart_nil_iff in H. now rewrite H.
Qed.

Lemma trim_truthy (s : jsstring) : str_truthy (trim s) = negb (blank s).
Proof.
  destruct (blank s) eqn:B; simpl.
  - apply trim_nil_iff in B. now rewrite B.
  - destruct (trim s) eqn:T; [|reflexivity].
    apply trim_nil_iff in T. congruence.
Qed.

(** A trimmed string that is not empty is not blank. *)
Lemma trim_not_blank (s : jsstring) : str_truthy (trim s) = true -> blank (trim s) = false.
Proof.
  unfold trim, trimEnd. intros H.
  destruct (trimStart_head (rev (trimStart s))) as [E | (c & r & E & Hc)].
  - now rewrite E in H.
  - rewrite E. rewrite blank_rev. simpl. now rewrite Hc.
Qed.

(** The blank-key test of the validators, in one place. *)
Lemma key_test (s : jsstring) :
  negb (str_truthy s) || str_eqb (trim s) [] = blank s.
Proof.
  rewrite str_eqb_nil, trim_truthy, negb_involutive.
  destruct s; simpl; [reflexivity|].
  reflexivity.
Qed.

(** A text that is not blank has a line that is not blank. *)
Lemma split_lines_not_nil (s : jsstring) : split_lines s <> [].
Proof.
  destruct s as [|c s]; simpl; [discriminate|].
  destruct (N.eqb c LF); [discriminate|].
  destruct (split_lines s); discriminate.
Qed.

Lemma nonEmptyLines_exists (s : jsstring) :
  blank s = false -> existsb (fun line => negb (blank line)) (split_lines s) = true.
Proof.
  induction s as [|c s IH]; simpl; [discriminate|].
  intros H. destruct (N.eqb c LF) eqn:E.
  - apply N.eqb_eq in E. subst c. simpl in H. simpl. now apply IH.
  - destruct (split_lines s) as [|l ls] eqn:S.
    + now destruct (split_lines_not_nil s).
    + simpl. destruct (isWhiteSpace c); simpl in *.
      * exact (IH H).
      * reflexivity.
Qed.

Lemma nonEmptyLines_not_nil (s : jsstring) : blank s = false -> nonEmptyLines s <> [].
Proof.
  intros H E. apply nonEmptyLines_exists in H.
  apply existsb_exists in H. destruct H as (line & Hin & Hl).
  assert (Hf : In line (nonEmptyLines s)) by (apply filter_In; auto).
  rewrite E in Hf. exact Hf.
Qed.

(** The filter of the source, [line => line.trim()], keeps the lines that
    are not blank. *)
Lemma filter_trim_lines (s : jsstring) :
  filter (fun line => str_truthy (trim line)) (split_lines s) = nonEmptyLines s.
Proof.
  unfold nonEmptyLines. apply filter_ext. intros line. apply trim_truthy.
Qed.

(* ------------------------------------------------------------------ *)
(** ** Configuration: the API key *)

(** [validateConfig] rejects every blank key, whatever else the
    configuration holds. *)
Lemma validateConfig_blank_key (p : option jsstring) (cfg : BaseAIConfig) :
  blank (apiKey cfg) = true ->
  BaseAIClient.validateConfig p cfg = Thrown (AIClientError KEY_REQUIRED p None None).
Proof.
  intros H. unfold BaseAIClient.validateConfig.
  now rewrite key_test, H.
Qed.

(** With a key that is not blank, the remaining checks decide. *)
Lemma validateConfig_visible_key (p : option jsstring) (cfg : BaseAIConfig) :
  blank (apiKey cfg) = false ->
  temperature cfg = None -> maxTokens cfg = None ->
  BaseAIClient.validateConfig p cfg = Returned tt.
Proof.
  intros H Ht Hm. unfold BaseAIClient.validateConfig.
  now rewrite key_test, H, Ht, Hm.
Qed.

(** The constructor of the abstract class fails on a blank key before it
    normalizes anything; the error carries no provider, since
    [this.provider] is not assigned yet. *)
Lemma BaseAIClient_constructor_blank_key
      (normalizeConfig : BaseAIConfig -> RequiredConfig)
      (cfg : BaseAIConfig) (p : jsstring) :
  blank (apiKey cfg) = true ->
  BaseAIClient.constructor normalizeConfig cfg p
  = Thrown (AIClientError KEY_REQUIRED None None None).
Proof.
  intros H. unfold BaseAIClient.constructor.
  now rewrite (validateConfig_blank_key None cfg H).
Qed.

(** The factory returns a client for every input, and the client holds
    the key it was given. *)
Lemma createAIClient_returns (pc : AIProviderConfig) :
  exists c, createAIClient pc = Returned c
            /\ r_apiKey (client_config c) = apiKey (config pc).
Proof.
  unfold createAIClient.
  destruct (str_eqb (provider pc) (lit "claude")); eexists; split; reflexivity.
Qed.

(** C1 (defect): a whitespace-only API key.  [createAIClient], through the
    [OpenAIClient] and the [ClaudeClient] constructor alike, returns a
    client that holds the blank key; the constructor of [BaseAIClient],
    which runs [validateConfig], throws the "API key is required" error on
    the same configuration. *)
Theorem C1_blank_key_constructs_client :
  let cfg := sampleConfig "   " None in
  (exists c, createAIClient {| provider := lit "openai"; config := cfg |}
             = Returned (IsOpenAI c)
             /\ r_apiKey (OpenAIClient.self_config c) = lit "   ")
  /\ (exists c, createAIClient {| provider := lit "claude"; config := cfg |}
                = Returned (IsClaude c)
                /\ r_apiKey (ClaudeClient.self_config c) = lit "   ")
  /\ (forall normalizeConfig p,
         BaseAIClient.constructor normalizeConfig cfg p
         = Thrown (AIClientError KEY_REQUIRED None None None)).
Proof.
  intros cfg. split; [|split].
  - eexists. split; reflexivity.
  - eexists. split; reflexivity.
  - intros nc p. now apply BaseAIClient_constructor_blank_key.
Qed.

(* ------------------------------------------------------------------ *)
(** ** The factory and the provider tag *)

(** The tag ["bard"] gets an [OpenAIClient]: nothing is thrown. *)
Lemma C2_bard_constructs_client :
  let pc := {| provider := lit "bard"; config := sampleConfig "sk-test" None |} in
  createAIClient pc = Returned (IsOpenAI (OpenAIClient.constructor (config pc)))
  /\ ~ (exists e, createAIClient pc = Thrown e).
Proof.
  intros pc. split; [reflexivity|].
  intros (e & H). discriminate H.
Qed.

(** C2 (amended): the factory recognizes the tag ['claude'] only; with
    any other tag, recognized or not, it constructs an [OpenAIClient]
    from the configuration and does not fail. *)
Theorem C2_other_tag_constructs_OpenAI (pc : AIProviderConfig) :
  str_eqb (provider pc) (lit "claude") = false ->
  createAIClient pc = Returned (IsOpenAI (OpenAIClient.constructor (config pc))).
Proof.
  intros H. unfold createAIClient. now rewrite H.
Qed.

Lemma C2_other_tag_witness :
  let pc := {| provider := lit "bard"; config := sampleConfig "sk-test" None |} in
  str_eqb (provider pc) (lit "claude") = false
  /\ createAIClient pc = Returned (IsOpenAI (OpenAIClient.constructor (config pc))).
Proof.
  intros pc. split; [reflexivity|].
  apply (C2_other_tag_constructs_OpenAI pc). reflexivity.
Defined.

(* ------------------------------------------------------------------ *)
(** ** Responses that are not ok *)

(** Unfolding of the monad, one layer at a time. *)
Ltac run_M :=
  cbv beta iota delta [try_catch mbind mret mthrow mlift emit await_fetch
                       await_json console_error negb].

Lemma requests_sent_app (t u : list event) :
  requests_sent (t ++ u) = requests_sent t + requests_sent u.
Proof. unfold requests_sent. now rewrite filter_app, length_app. Qed.

Lemma bodies_read_app (t u : list event) :
  bodies_read (t ++ u) = bodies_read t + bodies_read u.
Proof. unfold bodies_read. now rewrite filter_app, length_app. Qed.

(** Status 401 from the Claude endpoint: the error that comes out has
    the status inside its message and no [statusCode] field. *)
Lemma C3_status_401_counterexample :
  let c := IsClaude (ClaudeClient.constructor (sampleConfig "sk-test" None)) in
  let outcome :=
    snd (run (getCompletions (answering 401 "Unauthorized" None) c
                             (sampleRequest "x" None None))) in
  (exists e, outcome = Thrown e
             /\ error_message e = lit "Claude API error: 401 Unauthorized"
             /\ error_statusCode e = None)
  /\ ~ (exists e, outcome = Thrown e /\ error_statusCode e = Some 401%Z).
Proof.
  intros c outcome.
  assert (E : outcome = Thrown (NativeError ErrorC (lit "Claude API error: 401 Unauthorized")))
    by (vm_compute; reflexivity).
  split.
  - eexists. split; [exact E|]. split; reflexivity.
  - intros (e & He & Hs). rewrite E in He.
    injection He as <-. discriminate Hs.
Qed.

(** What the exported clients do on a response that is not ok, in full. *)
Lemma getCompletions_not_ok
      (fetch : WireRequest -> FetchOutcome) (c : AIClient)
      (request : CompletionRequest) (r : Response) (t0 : list event) :
  fetch (wireRequestOf c request) = Resolved r ->
  ok r = false ->
  getCompletions fetch c request t0
  = (t0 ++ [EvFetch (wireRequestOf c request);
            EvConsoleError (lit (logLabel c)) (httpError c r)],
     Thrown (httpError c r)).
Proof.
  intros Hf Hok.
  destruct c as [c|c]; simpl in Hf |- *.
  - unfold ClaudeClient.getCompletions. run_M. rewrite Hf. run_M.
    rewrite Hok. run_M. now rewrite <- app_assoc.
  - unfold OpenAIClient.getCompletions. run_M. rewrite Hf. run_M.
    rewrite Hok. run_M. now rewrite <- app_assoc.
Qed.

(** C3 (amended): when the response is not ok, [getCompletions] of either
    client fails, after its one request and without reading a body, with
    an error that reports the status in its message,
    ["<Claude|OpenAI> API error: <status> <statusText>"], and carries no
    [statusCode] field; [BaseAIClient.handleError], where an error passes
    through it, adds none. *)
Theorem C3_not_ok_status_only_in_message
        (fetch : WireRequest -> FetchOutcome) (c : AIClient)
        (request : CompletionRequest) (r : Response) (t0 : list event) :
  fetch (wireRequestOf c request) = Resolved r ->
  ok r = false ->
  exists t e,
    getCompletions fetch c request t0 = (t, Thrown e)
    /\ error_message e
       = lit (apiName c) ++ lit " API error: " ++ decimal (status r)
         ++ lit " " ++ statusText r
    /\ error_statusCode e = None
    /\ requests_sent t = S (requests_sent t0)
    /\ bodies_read t = bodies_read t0
    /\ (forall self e', BaseAIClient.handleError self e = Returned e' ->
                        error_statusCode e' = None).
Proof.
  intros Hf Hok.
  rewrite (getCompletions_not_ok fetch c request r t0 Hf Hok).
  eexists. eexists. split; [reflexivity|].
  split; [reflexivity|]. split; [reflexivity|].
  split; [rewrite requests_sent_app; unfold requests_sent at 2; simpl; lia|].
  split; [rewrite bodies_read_app; unfold bodies_read at 2; simpl; lia|].
  intros self e'. unfold httpError. cbn [BaseAIClient.handleError].
  destruct (_ && _); intros [= <-]; reflexivity.
Qed.

Lemma C3_not_ok_witness :
  let fetch := answering 401 "Unauthorized" None in
  let c := IsOpenAI (OpenAIClient.constructor (sampleConfig "sk-test" None)) in
  let request := sampleRequest "x" None None in
  let r := {| status := 401; statusText := lit "Unauthorized"; json := None |} in
  fetch (wireRequestOf c request) = Resolved r
  /\ ok r = false
  /\ exists t e,
       getCompletions fetch c request [] = (t, Thrown e)
       /\ error_message e = lit "OpenAI API error: 401 Unauthorized"
       /\ error_statusCode e = None
       /\ bodies_read t = 0.
Proof.
  intros fetch c request r.
  split; [reflexivity|]. split; [reflexivity|].
  destruct (C3_not_ok_status_only_in_message fetch c request r [] eq_refl eq_refl)
    as (t & e & E & Hm & Hs & _ & Hb & _).
  exists t, e. split; [exact E|]. split; [exact Hm|]. split; [exact Hs | exact Hb].
Defined.

(* ------------------------------------------------------------------ *)
(** ** Request validation and the network *)

Lemma validateRequest_blank_prompt (self : BaseAIClient.t) (request : CompletionRequest) :
  blank (prompt request) = true ->
  BaseAIClient.validateRequest self request
  = Thrown (AIClientError PROMPT_REQUIRED (Some (BaseAIClient.self_provider self)) None None).
Proof.
  intros H. unfold BaseAIClient.validateRequest. now rewrite key_test, H.
Qed.

Lemma validateRequest_not_positive
      (self : BaseAIClient.t) (request : CompletionRequest) (k : Z) :
  blank (prompt request) = false ->
  maxSuggestions request = Some k -> (k <= 0)%Z ->
  BaseAIClient.validateRequest self request
  = Thrown (AIClientError SUGGESTIONS_POSITIVE
                          (Some (BaseAIClient.self_provider self)) None None).
Proof.
  intros H Hk Hle. unfold BaseAIClient.validateRequest.
  rewrite key_test, H, Hk. simpl.
  apply Z.leb_le in Hle. now rewrite Hle.
Qed.

(** What [validateRequest] throws is an [AIClientError]. *)
Lemma validateRequest_throws_AIClientError
      (self : BaseAIClient.t) (request : CompletionRequest) (e : js_error) :
  BaseAIClient.validateRequest self request = Thrown e -> is_AIClientError e = true.
Proof.
  unfold BaseAIClient.validateRequest.
  destruct (_ || _).
  - intros [= <-]. reflexivity.
  - destruct (match maxSuggestions request with Some k => _ | None => _ end).
    + intros [= <-]. reflexivity.
    + discriminate.
Qed.

Ltac count_requests :=
  cbn [fst]; repeat rewrite requests_sent_app;
  unfold requests_sent; cbn [filter is_fetch List.length]; lia.

(** In [BaseAIClient.getCompletions] a request that fails validation
    leaves the trace as it was: [callAPI] is not reached, whatever it is,
    and the validation error comes out unchanged. *)
Lemma BaseAIClient_invalid_request_sends_nothing
      (callAPI : jsstring -> CompletionRequest -> M jsval)
      (parseResponse : jsval -> Z -> completion CompletionResponse)
      (dflt : option Z) (self : BaseAIClient.t) (request : CompletionRequest)
      (e : js_error) (t0 : list event) :
  BaseAIClient.validateRequest self request = Thrown e ->
  BaseAIClient.getCompletions callAPI parseResponse dflt self request t0
  = (t0, Thrown e).
Proof.
  intros H. pose proof (validateRequest_throws_AIClientError _ _ _ H) as K.
  unfold BaseAIClient.getCompletions, try_catch, mbind, mlift.
  rewrite H. unfold mthrow. destruct e; [reflexivity | discriminate K | discriminate K].
Qed.

(** Each call of an exported [getCompletions] sends one request, whatever
    the request holds and whatever the network answers. *)
Lemma ClaudeClient_sends_one_request
      (fetch : WireRequest -> FetchOutcome) (self : ClaudeClient.t)
      (request : CompletionRequest) (t0 : list event) :
  requests_sent (fst (ClaudeClient.getCompletions fetch self request t0))
  = S (requests_sent t0).
Proof.
  unfold ClaudeClient.getCompletions. run_M.
  destruct (fetch _) as [r|e]; run_M.
  - destruct (ok r); run_M.
    + destruct (json r) as [data|]; run_M.
      * destruct (ClaudeClient.parseResponse _ _); count_requests.
      * count_requests.
    + count_requests.
  - count_requests.
Qed.

Lemma OpenAIClient_sends_one_request
      (fetch : WireRequest -> FetchOutcome) (self : OpenAIClient.t)
      (request : CompletionRequest) (t0 : list event) :
  requests_sent (fst (OpenAIClient.getCompletions fetch self request t0))
  = S (requests_sent t0).
Proof.
  unfold OpenAIClient.getCompletions. run_M.
  destruct (fetch _) as [r|e]; run_M.
  - destruct (ok r); run_M.
    + destruct (json r) as [data|]; run_M.
      * destruct (OpenAIClient.parseResponse _); count_requests.
      * count_requests.
    + count_requests.
  - count_requests.
Qed.

(** C4 (defect): a request with a whitespace-only prompt and
    [maxSuggestions = 0].  [getCompletions] of [ClaudeClient] and of
    [OpenAIClient] sends it to the network all the same, on every network
    and for every configuration; [BaseAIClient.getCompletions], which
    validates first, throws the validation error with the trace untouched,
    for the blank prompt as for a non-positive [maxSuggestions]. *)
Theorem C4_invalid_request_is_sent
        (fetch : WireRequest -> FetchOutcome) (cfg : BaseAIConfig) (t0 : list event) :
  let bad := sampleRequest "   " None (Some 0%Z) in
  requests_sent
    (fst (ClaudeClient.getCompletions fetch (ClaudeClient.constructor cfg) bad t0))
  = S (requests_sent t0)
  /\ requests_sent
       (fst (OpenAIClient.getCompletions fetch (OpenAIClient.constructor cfg) bad t0))
     = S (requests_sent t0)
  /\ (forall callAPI parseResponse dflt rc p,
         BaseAIClient.getCompletions callAPI parseResponse dflt
           {| BaseAIClient.self_config := rc; BaseAIClient.self_provider := p |} bad t0
         = (t0, Thrown (AIClientError PROMPT_REQUIRED (Some p) None None))
         /\ BaseAIClient.getCompletions callAPI parseResponse dflt
              {| BaseAIClient.self_config := rc; BaseAIClient.self_provider := p |}
              (sampleRequest "x" None (Some 0%Z)) t0
            = (t0, Thrown (AIClientError SUGGESTIONS_POSITIVE (Some p) None None))).
Proof.
  intros bad. split; [|split].
  - apply ClaudeClient_sends_one_request.
  - apply OpenAIClient_sends_one_request.
  - intros callAPI parseResponse dflt rc p. split.
    + apply BaseAIClient_invalid_request_sends_nothing.
      now apply validateRequest_blank_prompt.
    + apply BaseAIClient_invalid_request_sends_nothing.
      apply (validateRequest_not_positive
               {| BaseAIClient.self_config := rc; BaseAIClient.self_provider := p |}
               (sampleRequest "x" None (Some 0%Z)) 0%Z);
        [reflexivity | reflexivity | lia].
Qed.

(* ------------------------------------------------------------------ *)
(** ** Configuration: the temperature *)

(** The exported constructors keep a temperature that is truthy. *)
Lemma fillDefaults_keeps_truthy_temperature
      (cfg : BaseAIConfig) (u m : string) (x : float) :
  temperature cfg = Some x -> num_truthy x = true ->
  r_temperature (fillDefaults cfg u m) = x.
Proof.
  intros H T. unfold fillDefaults, or_num. simpl. now rewrite H, T.
Qed.

(** ... and replace one that is not (0, -0, NaN) by the default. *)
Lemma fillDefaults_replaces_falsy_temperature
      (cfg : BaseAIConfig) (u m : string) (x : float) :
  temperature cfg = Some x -> num_truthy x = false ->
  r_temperature (fillDefaults cfg u m) = 0.3%float.
Proof.
  intros H T. unfold fillDefaults, or_num. simpl. now rewrite H, T.
Qed.

(** [validateConfig] on the temperature, the key being visible. *)
Lemma validateConfig_temperature_out_of_range
      (p : option jsstring) (cfg : BaseAIConfig) (x : float) :
  blank (apiKey cfg) = false -> temperature cfg = Some x ->
  PrimFloat.ltb x 0%float || PrimFloat.ltb 1%float x = true ->
  BaseAIClient.validateConfig p cfg = Thrown (AIClientError TEMPERATURE_RANGE p None None).
Proof.
  intros H Ht Hx. unfold BaseAIClient.validateConfig.
  now rewrite key_test, H, Ht, Hx.
Qed.

Lemma validateConfig_temperature_in_range
      (p : option jsstring) (cfg : BaseAIConfig) (x : float) :
  blank (apiKey cfg) = false -> temperature cfg = Some x ->
  PrimFloat.ltb x 0%float || PrimFloat.ltb 1%float x = false ->
  maxTokens cfg = None ->
  BaseAIClient.validateConfig p cfg = Returned tt.
Proof.
  intros H Ht Hx Hm. unfold BaseAIClient.validateConfig.
  now rewrite key_test, H, Ht, Hx, Hm.
Qed.

(** C5 (defect): temperature 0 and temperature 1.5.  The constructors of
    [OpenAIClient] and [ClaudeClient] turn the supplied 0 into the default
    0.3, though [validateConfig] accepts 0; and they accept 1.5 and keep
    it, though [validateConfig] rejects it. *)
Theorem C5_temperature_zero_becomes_default :
  let zero := sampleConfig "sk-test" (Some 0%float) in
  let hot := sampleConfig "sk-test" (Some 1.5%float) in
  r_temperature (OpenAIClient.self_config (OpenAIClient.constructor zero)) = 0.3%float
  /\ r_temperature (ClaudeClient.self_config (ClaudeClient.constructor zero)) = 0.3%float
  /\ BaseAIClient.validateConfig None zero = Returned tt
  /\ r_temperature (OpenAIClient.self_config (OpenAIClient.constructor hot)) = 1.5%float
  /\ r_temperature (ClaudeClient.self_config (ClaudeClient.constructor hot)) = 1.5%float
  /\ BaseAIClient.validateConfig None hot
     = Thrown (AIClientError TEMPERATURE_RANGE None None None).
Proof.
  intros zero hot.
  split; [reflexivity|]. split; [reflexivity|].
  split; [apply (validateConfig_temperature_in_range None zero 0%float); reflexivity|].
  split; [reflexivity|]. split; [reflexivity|].
  apply (validateConfig_temperature_out_of_range None hot 1.5%float); reflexivity.
Qed.

(* ------------------------------------------------------------------ *)
(** ** The prompt *)

(** The three builders, for every request.  The sections come in the
    order language line, context block, request, and an empty language or
    context is passed over like an absent one by the guards
    [if (request.language)] and [if (request.context)].
    [BaseAIClient.buildPrompt] joins the sections with blank lines;
    [buildPrompt] of [ClaudeClient] and of [OpenAIClient] ends the language
    line with a single line feed and the context block with a blank
    line. *)
Lemma buildPrompt_sections (request : CompletionRequest) :
  BaseAIClient.buildPrompt request = join (nl ++ nl) (promptSections request)
  /\ ClaudeClient.buildPrompt request = List.concat (promptSectionsTerminated request)
  /\ OpenAIClient.buildPrompt request = List.concat (promptSectionsTerminated request).
Proof.
  unfold BaseAIClient.buildPrompt, ClaudeClient.buildPrompt, OpenAIClient.buildPrompt,
    concatPrompt, promptSections, promptSectionsTerminated.
  destruct (language request) as [[|a l]|], (context request) as [[|b c]|];
    cbn [supplied str_truthy app join List.concat];
    repeat rewrite app_nil_r; repeat rewrite <- app_assoc; repeat split; reflexivity.
Qed.

(** C6 (defect): the request with prompt ["x"], language ["ts"] and no
    context.  [buildPrompt] of [ClaudeClient] and of [OpenAIClient] puts a
    single line feed, not a blank line, between the language line and the
    request; [BaseAIClient.buildPrompt], which joins its parts with
    ['\n\n'], separates them by a blank line, as the sections joined with
    blank lines are. *)
Theorem C6_exported_prompt_single_newline :
  let request := sampleRequest "x" (Some "ts"%string) None in
  ClaudeClient.buildPrompt request
  = lit "Language: ts" ++ nl ++ lit "Complete the following code:" ++ nl ++ lit "x"
  /\ OpenAIClient.buildPrompt request
     = lit "Language: ts" ++ nl ++ lit "Complete the following code:" ++ nl ++ lit "x"
  /\ BaseAIClient.buildPrompt request
     = lit "Language: ts" ++ nl ++ nl ++ lit "Complete the following code:" ++ nl ++ lit "x"
  /\ BaseAIClient.buildPrompt request = join (nl ++ nl) (promptSections request)
  /\ ClaudeClient.buildPrompt request <> join (nl ++ nl) (promptSections request)
  /\ OpenAIClient.buildPrompt request <> join (nl ++ nl) (promptSections request).
Proof.
  intros request.
  split; [reflexivity|]. split; [reflexivity|]. split; [reflexivity|].
  split; [reflexivity|].
  split; vm_compute; discriminate.
Qed.

(* ------------------------------------------------------------------ *)
(** ** The OpenAI parser and the confidence *)

(** An invariant of the push loop: what holds of the suggestions so far
    and of every suggestion the body can push holds at the end. *)
Lemma pushEach_Forall (P : CompletionSuggestion -> Prop)
      (body : jsval -> completion (option CompletionSuggestion)) :
  (forall x s, body x = Returned (Some s) -> P s) ->
  forall items acc r,
    Forall P acc -> pushEach body items acc = Returned r -> Forall P r.
Proof.
  intros Hbody. induction items as [|x items IH]; simpl; intros acc r Hacc H.
  - now injection H as <-.
  - destruct (body x) as [[s|]|e] eqn:E; simpl in H.
    + apply (IH _ _ (proj2 (Forall_app P acc [s])
                       (conj Hacc (Forall_cons s (Hbody x s E) (Forall_nil P)))) H).
    + exact (IH _ _ Hacc H).
    + discriminate.
Qed.

(** The parser of src/ai-client.ts never sets a confidence. *)
Lemma OpenAIClient_pushChoice_no_confidence (choice : jsval) (s : CompletionSuggestion) :
  OpenAIClient.pushChoice choice = Returned (Some s) -> confidence s = None.
Proof.
  unfold OpenAIClient.pushChoice.
  destruct (getProp choice "message") as [message|]; simpl; [|discriminate].
  destruct (truthy message); [|discriminate].
  destruct (getProp message "content") as [c|]; simpl; [|discriminate].
  destruct (truthy c); [|discriminate].
  destruct (callTrim c) as [t|]; simpl; [|discriminate].
  destruct (str_truthy t); [|discriminate].
  now intros [= <-].
Qed.

Lemma OpenAIClient_parse_no_confidence (data : jsval) (r : CompletionResponse) :
  OpenAIClient.parseResponse data = Returned r ->
  Forall (fun s => confidence s = None) (suggestions r).
Proof.
  unfold OpenAIClient.parseResponse.
  destruct (getProp data "choices") as [choices|]; simpl; [|discriminate].
  destruct (truthy choices), (asArray choices) as [items|]; simpl;
    try (destruct (getProp data "model"); simpl; [|discriminate];
         intros [= <-]; constructor).
  destruct (pushEach OpenAIClient.pushChoice items []) as [l|] eqn:E; simpl; [|discriminate].
  destruct (getProp data "model"); simpl; [|discriminate].
  intros [= <-]. simpl.
  apply (pushEach_Forall _ _ OpenAIClient_pushChoice_no_confidence items [] l);
    [constructor | exact E].
Qed.

(** The parser of lib/index.js sets one of three confidences. *)
Lemma LibOpenAIClient_confidence_values (choice : jsval) (x : float) :
  LibOpenAIClient.calculateConfidence choice = Returned x ->
  x = 0.9%float \/ x = 0.7%float \/ x = 0.5%float.
Proof.
  unfold LibOpenAIClient.calculateConfidence.
  destruct (getProp choice "finish_reason") as [r|]; simpl; [|discriminate].
  destruct (is_str r "stop"); [intros [= <-]; auto|].
  destruct (is_str r "length"); intros [= <-]; auto.
Qed.

(** In lib/index.js an entry that carries text yields one suggestion of
    type ['completion'] whose confidence follows the finish reason:
    0.9 for ['stop'], 0.7 for ['length'], 0.5 otherwise. *)
Lemma LibOpenAIClient_pushChoice_carries_text
      (props mprops : list (jsstring * jsval)) (s : jsstring) :
  lookup (lit "message") props = JObj mprops ->
  lookup (lit "content") mprops = JStr s ->
  blank s = false ->
  LibOpenAIClient.pushChoice (JObj props)
  = Returned (Some {| text := trim s;
                      confidence :=
                        Some (if is_str (lookup (lit "finish_reason") props) "stop"
                              then 0.9%float
                              else if is_str (lookup (lit "finish_reason") props) "length"
                                   then 0.7%float
                                   else 0.5%float);
                      type := Some completion_t |}).
Proof.
  intros Hm Hc Hb. unfold LibOpenAIClient.pushChoice, LibOpenAIClient.calculateConfidence.
  cbn [getProp cbind]. rewrite Hm. cbn [truthy getProp cbind]. rewrite Hc.
  assert (T : str_truthy s = true) by (destruct s; [discriminate Hb | reflexivity]).
  cbn [truthy callTrim cbind]. rewrite T. cbn [cbind].
  rewrite trim_truthy, Hb. cbn [negb].
  destruct (is_str (lookup (lit "finish_reason") props) "stop"); [reflexivity|].
  destruct (is_str (lookup (lit "finish_reason") props) "length"); reflexivity.
Qed.

(** C7 (defect): the response
    [{ choices: [{ message: { content: "foo" }, finish_reason: "stop" }] }].
    [OpenAIClient.parseResponse] of src/ai-client.ts returns the one
    suggestion without a confidence; the same method in lib/index.js,
    which calls [calculateConfidence], returns it with confidence 0.9. *)
Theorem C7_openai_suggestion_lacks_confidence :
  OpenAIClient.parseResponse fooStop
  = Returned {| suggestions := [ {| text := lit "foo"; confidence := None;
                                    type := Some completion_t |} ];
                resp_model := JUndefined |}
  /\ LibOpenAIClient.parseResponse fooStop
     = Returned {| suggestions := [ {| text := lit "foo"; confidence := Some 0.9%float;
                                       type := Some completion_t |} ];
                   resp_model := JUndefined |}.
Proof. split; vm_compute; reflexivity. Qed.

(* ------------------------------------------------------------------ *)
(** ** The Claude parser *)

(** The counted loop written out as a numbering. *)
Lemma numbered_as_map (pre lines : list jsstring) :
  numbered (List.length pre) lines
  = map (fun i =>
           {| text := trim (nth i (pre ++ lines) []);
              confidence := Some (0.9 - float_of_index i * 0.1)%float;
              type := Some completion_t |})
        (seq (List.length pre) (List.length lines)).
Proof.
  revert pre. induction lines as [|x lines IH]; intros pre; simpl; [reflexivity|].
  rewrite nth_middle. f_equal.
  specialize (IH (pre ++ [x])).
  rewrite length_app, Nat.add_1_r, <- app_assoc in IH. exact IH.
Qed.

(** The loop of [pushLines] emits the first [maxSuggestions] lines, each
    with its number. *)
Lemma pushLines_numbered (lines : list jsstring) (m : Z) :
  (0 <= m)%Z ->
  ClaudeClient.pushLines lines m = numbered 0 (firstn (Z.to_nat m) lines).
Proof.
  intros Hm. unfold ClaudeClient.pushLines.
  pose proof (numbered_as_map [] (firstn (Z.to_nat m) lines)) as N.
  cbn [List.length app] in N. rewrite N, length_firstn.
  replace (Z.to_nat (Z.min (Z.of_nat (List.length lines)) m))
    with (Nat.min (Z.to_nat m) (List.length lines)) by lia.
  apply map_ext_in. intros i Hi. apply in_seq in Hi.
  rewrite nth_firstn.
  assert (L : (i <? Z.to_nat m) = true) by (apply Nat.ltb_lt; lia).
  now rewrite L.
Qed.

Lemma pushLines_length (lines : list jsstring) (m : Z) :
  List.length (ClaudeClient.pushLines lines m)
  = Z.to_nat (Z.min (Z.of_nat (List.length lines)) m).
Proof. unfold ClaudeClient.pushLines. now rewrite length_map, length_seq. Qed.

(** The loop passes over a block that is not a text block with text. *)
Lemma scanContent_passes_over (b : jsval) (rest : list jsval) (m : Z) :
  passedOver b = true ->
  ClaudeClient.scanContent (b :: rest) m = ClaudeClient.scanContent rest m.
Proof.
  destruct b as [| |x|x|s|items|props]; simpl; try discriminate; try reflexivity.
  destruct (is_str (lookup (lit "type") props) "text"); simpl; [|reflexivity].
  destruct (lookup (lit "text") props) as [| |x|x|s|items|ps]; simpl;
    try discriminate; try reflexivity.
  - destruct x; simpl; [discriminate | reflexivity].
  - destruct (num_truthy x); simpl; [discriminate | reflexivity].
  - destruct s as [|c s]; [reflexivity|].
    cbn [str_truthy negb orb callTrim cbind]. intros H.
    now rewrite trim_truthy, H.
Qed.

Lemma scanContent_passes_over_all (pre rest : list jsval) (m : Z) :
  forallb passedOver pre = true ->
  ClaudeClient.scanContent (pre ++ rest) m = ClaudeClient.scanContent rest m.
Proof.
  induction pre as [|b pre IH]; intros H; [reflexivity|].
  simpl in H. apply andb_prop in H as [Hb Hpre].
  change ((b :: pre) ++ rest) with (b :: (pre ++ rest)).
  rewrite (scanContent_passes_over b _ m Hb). now apply IH.
Qed.

(** ... and stops at a text block whose text is not blank. *)
Lemma scanContent_text_block (b : jsval) (t : jsstring) (rest : list jsval) (m : Z) :
  isTextBlock b t = true -> blank t = false ->
  ClaudeClient.scanContent (b :: rest) m
  = Returned (ClaudeClient.pushLines (nonEmptyLines (trim t)) m).
Proof.
  destruct b as [| |x|x|s|items|props]; simpl; try discriminate.
  intros H B. apply andb_prop in H as [Hty Htx].
  rewrite Hty. simpl.
  destruct (lookup (lit "text") props) as [| |x|x|s|items|ps]; try discriminate.
  apply str_eqb_eq in Htx. subst s. simpl.
  assert (T : str_truthy t = true) by (destruct t; [discriminate B | reflexivity]).
  rewrite T. simpl. rewrite trim_truthy, B. simpl.
  now rewrite filter_trim_lines.
Qed.

(** Two payloads on which the parser does not do what "the first text
    block, capped at [maxSuggestions]" says.  With a whitespace-only text
    block in front, the suggestions come from the second text block; with
    [maxSuggestions = -1], the fallback returns the whole text as one
    suggestion. *)
Lemma C8_first_text_block_counterexample :
  firstTextBlock blankThenLines = Some (lit "   ")
  /\ claimedClaudeSuggestions blankThenLines 2 = []
  /\ ClaudeClient.parseResponse (JObj [(lit "content", JArr blankThenLines)]) 2
     = Returned {| suggestions :=
                     [ {| text := lit "a"; confidence := Some 0.9%float;
                          type := Some completion_t |};
                       {| text := lit "b"; confidence := Some 0.8%float;
                          type := Some completion_t |} ];
                   resp_model := JUndefined |}
  /\ ~ (exists r,
          ClaudeClient.parseResponse (JObj [(lit "content", JArr blankThenLines)]) 2
          = Returned r
          /\ suggestions r = claimedClaudeSuggestions blankThenLines 2)
  /\ claimedClaudeSuggestions [textBlock abcLines] (-1) = []
  /\ ClaudeClient.parseResponse (oneTextBlock abcLines) (-1)
     = Returned {| suggestions :=
                     [ {| text := abcLines; confidence := Some 0.9%float;
                          type := Some completion_t |} ];
                   resp_model := JUndefined |}.
Proof.
  assert (E : ClaudeClient.parseResponse (JObj [(lit "content", JArr blankThenLines)]) 2
              = Returned {| suggestions :=
                              [ {| text := lit "a"; confidence := Some 0.9%float;
                                   type := Some completion_t |};
                                {| text := lit "b"; confidence := Some 0.8%float;
                                   type := Some completion_t |} ];
                            resp_model := JUndefined |})
    by (vm_compute; reflexivity).
  split; [reflexivity|]. split; [reflexivity|]. split; [exact E|].
  split.
  - intros (r & Hr & Hs). rewrite E in Hr. injection Hr as <-.
    discriminate Hs.
  - split; [reflexivity|]. vm_compute. reflexivity.
Qed.

(** C8 (amended): in a payload whose [content] array has a text block with
    text [t] that is not blank, behind blocks the loop passes over (blocks
    of another type, and text blocks whose text is empty or
    whitespace-only), the Claude parser, for a positive [maxSuggestions],
    splits the trimmed [t] into its non-empty lines, keeps the first
    [maxSuggestions] of them and returns one suggestion per kept line, the
    line number [i] giving the confidence [0.9 - 0.1 * i]. *)
Theorem C8_claude_lines_capped
        (props : list (jsstring * jsval)) (pre rest : list jsval)
        (b : jsval) (t : jsstring) (m : Z) :
  lookup (lit "content") props = JArr (pre ++ b :: rest) ->
  forallb passedOver pre = true ->
  isTextBlock b t = true ->
  blank t = false ->
  (0 < m)%Z ->
  ClaudeClient.parseResponse (JObj props) m
  = Returned {| suggestions := numbered 0 (firstn (Z.to_nat m) (nonEmptyLines (trim t)));
                resp_model := lookup (lit "model") props |}.
Proof.
  intros Hc Hpre Hb Ht Hm.
  unfold ClaudeClient.parseResponse. simpl.
  rewrite Hc. simpl.
  rewrite (scanContent_passes_over_all pre (b :: rest) m Hpre).
  rewrite (scanContent_text_block b t rest m Hb Ht). simpl.
  assert (Hlen : List.length (ClaudeClient.pushLines (nonEmptyLines (trim t)) m) <> 0).
  { rewrite pushLines_length.
    assert (nonEmptyLines (trim t) <> []).
    { apply nonEmptyLines_not_nil, trim_not_blank. now rewrite trim_truthy, Ht. }
    destruct (nonEmptyLines (trim t)); [congruence | simpl; lia]. }
  destruct (ClaudeClient.pushLines (nonEmptyLines (trim t)) m) as [|s l] eqn:E;
    [now elim Hlen|].
  simpl. rewrite <- E, pushLines_numbered by lia. reflexivity.
Qed.

Lemma C8_abc_witness :
  lookup (lit "content") (oneTextBlockProps abcLines) = JArr ([] ++ textBlock abcLines :: [])
  /\ forallb passedOver [] = true
  /\ isTextBlock (textBlock abcLines) abcLines = true
  /\ blank abcLines = false
  /\ (0 < 2)%Z
  /\ ClaudeClient.parseResponse (oneTextBlock abcLines) 2
     = Returned {| suggestions :=
                     [ {| text := lit "a"; confidence := Some 0.9%float;
                          type := Some completion_t |};
                       {| text := lit "b"; confidence := Some 0.8%float;
                          type := Some completion_t |} ];
                   resp_model := JUndefined |}.
Proof.
  split; [reflexivity|]. split; [reflexivity|]. split; [reflexivity|].
  split; [reflexivity|]. split; [lia|].
  unfold oneTextBlock.
  rewrite (C8_claude_lines_capped (oneTextBlockProps abcLines) [] []
             (textBlock abcLines) abcLines 2
             eq_refl eq_refl eq_refl eq_refl eq_refl).
  vm_compute. reflexivity.
Defined.

(* ------------------------------------------------------------------ *)
(** ** The range of the confidence *)

(** The first ten line numbers give a confidence in the unit interval. *)
Lemma first_ten_in_range (i : nat) :
  i < 10 -> in_unit_interval (0.9 - float_of_index i * 0.1)%float = true.
Proof.
  intros H.
  do 10 (destruct i as [|i]; [vm_compute; reflexivity|]).
  lia.
Qed.

(** The three confidences of lib/index.js are in the unit interval. *)
Lemma LibOpenAIClient_confidence_in_range (choice : jsval) (x : float) :
  LibOpenAIClient.calculateConfidence choice = Returned x ->
  in_unit_interval x = true.
Proof.
  intros H. apply LibOpenAIClient_confidence_values in H.
  destruct H as [-> | [-> | ->]]; vm_compute; reflexivity.
Qed.

(** C9 (defect): a Claude response whose text block has eleven lines,
    parsed with [maxSuggestions = 11].  The eleventh suggestion carries the
    confidence [0.9 - 10 * 0.1], a negative number, outside the range
    0.0-1.0 that [CompletionSuggestion.confidence] documents; the same
    suggestion comes out of [getCompletions] for a request that asks for
    eleven suggestions. *)
Theorem C9_eleventh_suggestion_negative_confidence :
  exists r s c,
    ClaudeClient.parseResponse (oneTextBlock elevenLines) 11 = Returned r
    /\ nth_error (suggestions r) 10 = Some s
    /\ confidence s = Some c
    /\ PrimFloat.ltb c 0%float = true
    /\ in_unit_interval c = false
    /\ snd (run (ClaudeClient.getCompletions
                   (answering 200 "OK" (Some (oneTextBlock elevenLines)))
                   (ClaudeClient.constructor (sampleConfig "sk-test" None))
                   (sampleRequest "x" None (Some 11%Z))))
       = Returned r.
Proof.
  eexists. eexists. eexists.
  split; [vm_compute; reflexivity|].
  split; [vm_compute; reflexivity|].
  split; [reflexivity|].
  split; [vm_compute; reflexivity|].
  split; vm_compute; reflexivity.
Qed.

(* ------------------------------------------------------------------ *)
(** ** The OpenAI parser and the number of suggestions *)

(** On an entry it can read, the loop body pushes one suggestion when the
    entry carries text and none otherwise. *)
Lemma OpenAIClient_pushChoice_readable (choice : jsval) :
  readableChoice choice = true ->
  exists o, OpenAIClient.pushChoice choice = Returned o
            /\ (match o with Some _ => true | None => false end) = carriesText choice.
Proof.
  unfold OpenAIClient.pushChoice.
  destruct choice as [| |x|x|s|items|props]; try discriminate;
    try (intros _; eexists; split; reflexivity).
  cbn [readableChoice carriesText getProp cbind].
  destruct (lookup (lit "message") props) as [| |x|x|s|items|mprops];
    try (intros _; cbn [truthy]; try destruct x; try destruct (num_truthy x);
         try destruct s; eexists; split; reflexivity).
  cbn [truthy getProp cbind].
  destruct (lookup (lit "content") mprops) as [| |x|x|s|items|ps]; cbn [truthy negb];
    try discriminate;
    try (intros _; eexists; split; reflexivity).
  - destruct x; [discriminate|]. intros _; eexists; split; reflexivity.
  - destruct (num_truthy x); [discriminate|]. intros _; eexists; split; reflexivity.
  - intros _. destruct s as [|c s]; [eexists; split; reflexivity|].
    cbn [str_truthy callTrim cbind]. rewrite trim_truthy.
    destruct (blank (c :: s)); eexists; split; reflexivity.
Qed.

(** When the loop body returns at all, it pushed exactly on the entries
    that carry text. *)
Lemma OpenAIClient_pushChoice_returned (choice : jsval) (o : option CompletionSuggestion) :
  OpenAIClient.pushChoice choice = Returned o ->
  (match o with Some _ => true | None => false end) = carriesText choice.
Proof.
  unfold OpenAIClient.pushChoice.
  destruct choice as [| |x|x|s|items|props]; try discriminate;
    try (intros [= <-]; reflexivity).
  cbn [carriesText getProp cbind].
  destruct (lookup (lit "message") props) as [| |x|x|s|items|mprops];
    try (cbn [truthy]; try destruct x; try destruct (num_truthy x);
         try destruct s; intros [= <-]; reflexivity).
  cbn [truthy getProp cbind].
  destruct (lookup (lit "content") mprops) as [| |x|x|s|items|ps]; cbn [truthy];
    try (intros [= <-]; reflexivity).
  - destruct x; [discriminate | intros [= <-]; reflexivity].
  - destruct (num_truthy x); [discriminate | intros [= <-]; reflexivity].
  - destruct s as [|c s]; [intros [= <-]; reflexivity|].
    cbn [str_truthy callTrim cbind]. rewrite trim_truthy.
    destruct (blank (c :: s)); intros [= <-]; reflexivity.
Qed.

Lemma pushEach_length_if_returns (items : list jsval) :
  forall acc r,
    pushEach OpenAIClient.pushChoice items acc = Returned r ->
    List.length r = List.length acc + List.length (filter carriesText items).
Proof.
  induction items as [|x items IH]; simpl; intros acc r H.
  - injection H as <-. lia.
  - destruct (OpenAIClient.pushChoice x) as [o|e] eqn:E; simpl in H; [|discriminate].
    apply OpenAIClient_pushChoice_returned in E.
    apply IH in H. rewrite H.
    destruct o; rewrite <- E; simpl; [rewrite length_app; simpl|]; lia.
Qed.

Lemma pushEach_returns (items : list jsval) :
  forallb readableChoice items = true ->
  forall acc, exists r, pushEach OpenAIClient.pushChoice items acc = Returned r.
Proof.
  induction items as [|x items IH]; simpl; intros H acc.
  - now exists acc.
  - apply andb_prop in H as [Hx Hitems].
    destruct (OpenAIClient_pushChoice_readable x Hx) as (o & E & _).
    rewrite E. simpl. apply (IH Hitems).
Qed.

(** Whatever the payload, when the parser returns, the suggestions are as
    many as the entries of [choices] that carry text. *)
Lemma OpenAIClient_parse_count_if_returns (data : jsval) (r : CompletionResponse) :
  OpenAIClient.parseResponse data = Returned r ->
  List.length (suggestions r) = List.length (filter carriesText (choicesOf data)).
Proof.
  unfold OpenAIClient.parseResponse, choicesOf.
  destruct data as [| |x|x|s|items|props]; try discriminate;
    try (intros [= <-]; reflexivity).
  cbn [getProp cbind].
  destruct (lookup (lit "choices") props) as [| |x|x|s|items|ps]; cbn [truthy asArray];
    try (intros [= <-]; reflexivity);
    try (destruct x; intros [= <-]; reflexivity);
    try (destruct (num_truthy x); intros [= <-]; reflexivity);
    try (destruct s; intros [= <-]; reflexivity).
  destruct (pushEach OpenAIClient.pushChoice items []) as [l|e] eqn:E;
    cbn [cbind]; [|discriminate].
  intros [= <-]. cbn [suggestions].
  now apply pushEach_length_if_returns in E.
Qed.

(** On a payload it can read, the parser returns. *)
Lemma OpenAIClient_parse_returns (data : jsval) :
  readableBody data = true ->
  forallb readableChoice (choicesOf data) = true ->
  exists r, OpenAIClient.parseResponse data = Returned r.
Proof.
  unfold OpenAIClient.parseResponse, choicesOf.
  destruct data as [| |x|x|s|items|props]; try discriminate;
    try (intros _ _; eexists; reflexivity).
  intros _. cbn [getProp cbind].
  destruct (lookup (lit "choices") props) as [| |x|x|s|items|ps]; cbn [truthy asArray];
    try (intros _; eexists; reflexivity);
    try (intros _; destruct x; eexists; reflexivity);
    try (intros _; destruct (num_truthy x); eexists; reflexivity);
    try (intros _; destruct s; eexists; reflexivity).
  intros H. destruct (pushEach_returns items H []) as (l & E).
  rewrite E. eexists. reflexivity.
Qed.

(** On an ok response with a JSON body, [getCompletions] is one request,
    one body read and the parser; a parser error is logged and rethrown. *)
Lemma OpenAIClient_getCompletions_ok
      (fetch : WireRequest -> FetchOutcome) (self : OpenAIClient.t)
      (request : CompletionRequest) (r : Response) (data : jsval)
      (t0 : list event) :
  fetch (OpenAIClient.wireRequest self request) = Resolved r ->
  ok r = true ->
  json r = Some data ->
  OpenAIClient.getCompletions fetch self request t0
  = match OpenAIClient.parseResponse data with
    | Returned resp =>
        (t0 ++ [EvFetch (OpenAIClient.wireRequest self request); EvReadBody],
         Returned resp)
    | Thrown e =>
        (t0 ++ [EvFetch (OpenAIClient.wireRequest self request); EvReadBody;
                EvConsoleError (lit "Error getting AI completions:") e],
         Thrown e)
    end.
Proof.
  intros Hf Hok Hj.
  unfold OpenAIClient.getCompletions. run_M. rewrite Hf. run_M.
  rewrite Hok. run_M. rewrite Hj. run_M.
  destruct (OpenAIClient.parseResponse data); repeat rewrite <- app_assoc; reflexivity.
Qed.

(** C10: on every ok response with a JSON body, whenever
    [OpenAIClient.getCompletions] returns, it returns as many suggestions
    as [choices] has entries with a non-empty trimmed message content, and
    it does return, after its one request and one body read, when the body
    is one the parser can read.  [maxSuggestions] does not enter the count:
    it only sets the wire parameter [n] of the request. *)
Theorem C10_openai_no_client_cap
        (fetch : WireRequest -> FetchOutcome) (self : OpenAIClient.t)
        (request : CompletionRequest) (r : Response) (data : jsval)
        (t0 : list event) :
  fetch (OpenAIClient.wireRequest self request) = Resolved r ->
  ok r = true ->
  json r = Some data ->
  (forall resp,
      snd (OpenAIClient.getCompletions fetch self request t0) = Returned resp ->
      List.length (suggestions resp)
      = List.length (filter carriesText (choicesOf data)))
  /\ (readableBody data = true ->
      forallb readableChoice (choicesOf data) = true ->
      exists resp,
        OpenAIClient.getCompletions fetch self request t0
        = (t0 ++ [EvFetch (OpenAIClient.wireRequest self request); EvReadBody],
           Returned resp))
  /\ wire_n (body (OpenAIClient.wireRequest self request))
     = Some (or_int (maxSuggestions request) 3).
Proof.
  intros Hf Hok Hj.
  rewrite (OpenAIClient_getCompletions_ok fetch self request r data t0 Hf Hok Hj).
  split; [|split].
  - intros resp H.
    destruct (OpenAIClient.parseResponse data) as [resp'|e] eqn:E; [|discriminate H].
    injection H as <-. now apply OpenAIClient_parse_count_if_returns.
  - intros Hb Hc.
    destruct (OpenAIClient_parse_returns data Hb Hc) as (resp & E).
    exists resp. now rewrite E.
  - reflexivity.
Qed.

Lemma C10_two_choices_witness :
  let fetch := answering 200 "OK" (Some twoChoices) in
  let self := OpenAIClient.constructor (sampleConfig "sk-test" None) in
  let request := sampleRequest "x" None (Some 1%Z) in
  let r := {| status := 200; statusText := lit "OK"; json := Some twoChoices |} in
  fetch (OpenAIClient.wireRequest self request) = Resolved r
  /\ ok r = true
  /\ json r = Some twoChoices
  /\ exists resp,
       snd (run (OpenAIClient.getCompletions fetch self request)) = Returned resp
       /\ List.length (suggestions resp) = 2
       /\ wire_n (body (OpenAIClient.wireRequest self request)) = Some 1%Z.
Proof.
  intros fetch self request r.
  split; [reflexivity|]. split; [reflexivity|]. split; [reflexivity|].
  destruct (C10_openai_no_client_cap fetch self request r twoChoices []
              eq_refl eq_refl eq_refl) as (L & R & W).
  destruct (R eq_refl eq_refl) as (resp & E).
  exists resp. split; [|split].
  - unfold run. now rewrite E.
  - apply L. now rewrite E.
  - exact W.
Defined.

(* ------------------------------------------------------------------ *)
(** ** Validation in [BaseAIClient], in full *)

Lemma leb_ltb_swap (k : Z) : (k <=? 0)%Z = negb (0 <? k)%Z.
Proof. destruct (Z.leb_spec k 0), (Z.ltb_spec 0 k); try reflexivity; lia. Qed.

(** The nested tests of [validateConfig] as one condition. *)
Lemma validateConfig_accepts_iff (p : option jsstring) (cfg : BaseAIConfig) :
  BaseAIClient.validateConfig p cfg = Returned tt <-> configAcceptable cfg = true.
Proof.
  unfold BaseAIClient.validateConfig, configAcceptable.
  rewrite key_test.
  destruct (blank (apiKey cfg)); cbn [negb andb]; [split; discriminate|].
  destruct (temperature cfg) as [x|];
    [destruct (PrimFloat.ltb x 0 || PrimFloat.ltb 1 x); cbn [negb andb];
     [split; discriminate|]|];
    (destruct (maxTokens cfg) as [k|]; [rewrite leb_ltb_swap; destruct (0 <? k)%Z|];
     cbn [negb]; split; (reflexivity || discriminate)).
Qed.

(** What [validateConfig] throws carries the provider it was called with
    and nothing else beside the message. *)
Lemma validateConfig_outcome (p : option jsstring) (cfg : BaseAIConfig) :
  BaseAIClient.validateConfig p cfg = Returned tt
  \/ exists message,
       BaseAIClient.validateConfig p cfg = Thrown (AIClientError message p None None).
Proof.
  unfold BaseAIClient.validateConfig.
  destruct (_ || _); [right; eexists; reflexivity|].
  destruct (match temperature cfg with Some x => _ | None => _ end);
    [right; eexists; reflexivity|].
  destruct (match maxTokens cfg with Some k => _ | None => _ end);
    [right; eexists; reflexivity | now left].
Qed.

(** X1: [validateConfig] returns exactly on the configurations whose key
    is not blank, whose temperature, if given, is neither below 0 nor
    above 1, and whose [maxTokens], if given, is positive; on every other
    configuration it throws an [AIClientError] that carries the provider
    it was called with, no status code and no cause. *)
Theorem validateConfig_returns_iff (p : option jsstring) (cfg : BaseAIConfig) :
  (BaseAIClient.validateConfig p cfg = Returned tt <-> configAcceptable cfg = true)
  /\ (configAcceptable cfg = false ->
      exists message,
        BaseAIClient.validateConfig p cfg = Thrown (AIClientError message p None None)).
Proof.
  split; [apply validateConfig_accepts_iff|].
  intros H. destruct (validateConfig_outcome p cfg) as [E | E]; [|exact E].
  apply validateConfig_accepts_iff in E. congruence.
Qed.

(** The nested tests of [validateRequest] as one condition. *)
Lemma validateRequest_accepts_iff (self : BaseAIClient.t) (request : CompletionRequest) :
  BaseAIClient.validateRequest self request = Returned tt
  <-> requestAcceptable request = true.
Proof.
  unfold BaseAIClient.validateRequest, requestAcceptable.
  rewrite key_test.
  destruct (blank (prompt request)); cbn [negb andb]; [split; discriminate|].
  destruct (maxSuggestions request) as [k|]; [rewrite leb_ltb_swap; destruct (0 <? k)%Z|];
    cbn [negb]; split; (reflexivity || discriminate).
Qed.

Lemma validateRequest_outcome (self : BaseAIClient.t) (request : CompletionRequest) :
  BaseAIClient.validateRequest self request = Returned tt
  \/ exists message,
       BaseAIClient.validateRequest self request
       = Thrown (AIClientError message (Some (BaseAIClient.self_provider self)) None None).
Proof.
  unfold BaseAIClient.validateRequest.
  destruct (_ || _); [right; eexists; reflexivity|].
  destruct (match maxSuggestions request with Some k => _ | None => _ end);
    [right; eexists; reflexivity | now left].
Qed.

(** X2: [validateRequest] returns exactly on the requests whose prompt is
    not blank and whose [maxSuggestions], if given, is positive; on every
    other request it throws an [AIClientError] tagged with the provider of
    the client. *)
Theorem validateRequest_returns_iff (self : BaseAIClient.t) (request : CompletionRequest) :
  (BaseAIClient.validateRequest self request = Returned tt
   <-> requestAcceptable request = true)
  /\ (requestAcceptable request = false ->
      exists message,
        BaseAIClient.validateRequest self request
        = Thrown (AIClientError message (Some (BaseAIClient.self_provider self)) None None)).
Proof.
  split; [apply validateRequest_accepts_iff|].
  intros H. destruct (validateRequest_outcome self request) as [E | E]; [|exact E].
  apply validateRequest_accepts_iff in E. congruence.
Qed.

(** X3: the constructor of [BaseAIClient] returns, on an acceptable
    configuration, the client that holds the normalized configuration and
    the provider; on any other it throws an error with no provider in it,
    because [this.provider] is assigned only after the validation. *)
Theorem BaseAIClient_constructor_outcome
        (normalizeConfig : BaseAIConfig -> RequiredConfig)
        (cfg : BaseAIConfig) (p : jsstring) :
  (configAcceptable cfg = true ->
   BaseAIClient.constructor normalizeConfig cfg p
   = Returned {| BaseAIClient.self_config := normalizeConfig cfg;
                 BaseAIClient.self_provider := p |})
  /\ (configAcceptable cfg = false ->
      exists e, BaseAIClient.constructor normalizeConfig cfg p = Thrown e
                /\ is_AIClientError e = true
                /\ error_provider e = None).
Proof.
  unfold BaseAIClient.constructor.
  split; intros H.
  - apply (validateConfig_accepts_iff None) in H. now rewrite H.
  - destruct (validateConfig_outcome None cfg) as [E | (message & E)].
    + apply validateConfig_accepts_iff in E. congruence.
    + rewrite E. eexists. split; [reflexivity|]. split; reflexivity.
Qed.

(* ------------------------------------------------------------------ *)
(** ** Error normalization in [BaseAIClient] *)

(** On every thrown value but [null] and [undefined], [handleError]
    returns an [AIClientError]. *)
Lemma handleError_returns_AIClientError (self : BaseAIClient.t) (e : js_error) :
  e <> ThrownNullish ->
  exists e', BaseAIClient.handleError self e = Returned e'
             /\ is_AIClientError e' = true.
Proof.
  destruct e as [m p sc oe | cls m |]; simpl; intros H.
  - eexists. split; reflexivity.
  - destruct (_ && _); eexists; split; reflexivity.
  - now elim H.
Qed.

(** X4: [handleError] turns a thrown error into an [AIClientError]: an
    [AIClientError] passes through as it is, and a native error is wrapped
    with the provider of the client, no status code and the native error
    as the cause; applying it a second time changes nothing.  On a thrown
    [null] or [undefined] it does not return: reading [error.message]
    throws a [TypeError]. *)
Theorem handleError_normalizes (self : BaseAIClient.t) (e : js_error) :
  (e <> ThrownNullish ->
   exists e', BaseAIClient.handleError self e = Returned e'
              /\ is_AIClientError e' = true
              /\ BaseAIClient.handleError self e' = Returned e')
  /\ (is_AIClientError e = true -> BaseAIClient.handleError self e = Returned e)
  /\ (forall cls m, e = NativeError cls m ->
      exists message,
        BaseAIClient.handleError self e
        = Returned (AIClientError message (Some (BaseAIClient.self_provider self))
                                  None (Some e)))
  /\ (exists m, BaseAIClient.handleError self ThrownNullish
                = Thrown (NativeError TypeErrorC m)).
Proof.
  split; [|split; [|split]].
  - intros H. destruct (handleError_returns_AIClientError self e H) as (e' & E & K).
    exists e'. split; [exact E|]. split; [exact K|].
    destruct e'; [reflexivity | discriminate K | discriminate K].
  - destruct e; [reflexivity | discriminate | discriminate].
  - intros cls m ->. simpl. destruct (_ && _); eexists; reflexivity.
  - eexists. reflexivity.
Qed.

(** X5: provided [callAPI] and [parseResponse] never throw [null] or
    [undefined], what [BaseAIClient.getCompletions] throws is an
    [AIClientError], whatever else they do and whether or not
    [AI_DEFAULTS] is declared. *)
Theorem BaseAIClient_getCompletions_throws_AIClientError
        (callAPI : jsstring -> CompletionRequest -> M jsval)
        (parseResponse : jsval -> Z -> completion CompletionResponse)
        (dflt : option Z) (self : BaseAIClient.t) (request : CompletionRequest)
        (t0 t : list event) (e : js_error) :
  (forall p r u u', callAPI p r u <> (u', Thrown ThrownNullish)) ->
  (forall v k, parseResponse v k <> Thrown ThrownNullish) ->
  BaseAIClient.getCompletions callAPI parseResponse dflt self request t0 = (t, Thrown e) ->
  is_AIClientError e = true.
Proof.
  intros Hcall Hparse.
  assert (G : forall e0 u, e0 <> ThrownNullish ->
                (let (u', c) := (u, BaseAIClient.handleError self e0) in
                 match c with
                 | Returned a => (u', @Thrown CompletionResponse a)
                 | Thrown e1 => (u', Thrown e1)
                 end) = (t, Thrown e) -> is_AIClientError e = true).
  { intros e0 u H0 H.
    destruct (handleError_returns_AIClientError self e0 H0) as (e' & E & K).
    rewrite E in H. now injection H as _ <-. }
  unfold BaseAIClient.getCompletions. run_M.
  destruct (BaseAIClient.validateRequest self request) as [[]|e0] eqn:V.
  - destruct (callAPI _ request t0) as [t1 [v|e1]] eqn:C.
    + destruct (BaseAIClient.maxSuggestionsOrDefault dflt request) as [k|e2] eqn:D.
      * destruct (parseResponse v k) as [r|e3] eqn:P; [discriminate|].
        apply G. intros ->. exact (Hparse v k P).
      * apply G. intros ->. revert D.
        unfold BaseAIClient.maxSuggestionsOrDefault, BaseAIClient.readDefault.
        destruct (maxSuggestions request) as [k|]; [destruct (int_truthy k)|];
          destruct dflt; discriminate.
    + apply G. intros ->. exact (Hcall _ _ _ _ C).
  - apply G. intros ->.
    apply validateRequest_throws_AIClientError in V. discriminate V.
Qed.

Lemma BaseAIClient_throws_witness :
  let self := {| BaseAIClient.self_config := fillDefaults (sampleConfig "sk-test" None) "u" "m";
                 BaseAIClient.self_provider := lit "openai" |} in
  let callAPI := fun (_ : jsstring) (_ : CompletionRequest) (t : list event) =>
                   (t, @Thrown jsval (NativeError ErrorC (lit "boom"))) in
  let parse := fun (_ : jsval) (_ : Z) =>
                 Returned {| suggestions := []; resp_model := JUndefined |} in
  let e := AIClientError (lit "Unexpected error: boom") (Some (lit "openai")) None
                         (Some (NativeError ErrorC (lit "boom"))) in
  (forall p r u u', callAPI p r u <> (u', Thrown ThrownNullish))
  /\ (forall v k, parse v k <> Thrown ThrownNullish)
  /\ BaseAIClient.getCompletions callAPI parse None self (sampleRequest "x" None None) []
     = ([], Thrown e)
  /\ is_AIClientError e = true.
Proof.
  intros self callAPI parse e.
  assert (H1 : forall p r u u', callAPI p r u <> (u', Thrown ThrownNullish))
    by (intros p r u u' H; discriminate H).
  assert (H2 : forall v k, parse v k <> Thrown ThrownNullish)
    by (intros v k H; discriminate H).
  assert (E : BaseAIClient.getCompletions callAPI parse None self
                (sampleRequest "x" None None) [] = ([], Thrown e)) by reflexivity.
  split; [exact H1|]. split; [exact H2|]. split; [exact E|].
  exact (BaseAIClient_getCompletions_throws_AIClientError
           callAPI parse None self (sampleRequest "x" None None) [] [] e H1 H2 E).
Defined.

(** A thrown [null] is not normalized: the [TypeError] of [handleError]
    comes out of [getCompletions]. *)
Example BaseAIClient_thrown_null_escapes :
  let self := {| BaseAIClient.self_config := fillDefaults (sampleConfig "sk-test" None) "u" "m";
                 BaseAIClient.self_provider := lit "openai" |} in
  let callAPI := fun (_ : jsstring) (_ : CompletionRequest) (t : list event) =>
                   (t, @Thrown jsval ThrownNullish) in
  let parse := fun (_ : jsval) (_ : Z) =>
                 Returned {| suggestions := []; resp_model := JUndefined |} in
  BaseAIClient.getCompletions callAPI parse (Some 3%Z) self (sampleRequest "x" None None) []
  = ([], Thrown cannot_read).
Proof. reflexivity. Qed.

(** With [AI_DEFAULTS] undeclared and no [maxSuggestions] in the request,
    the call fails after [callAPI] with the wrapped [ReferenceError]. *)
Example BaseAIClient_undeclared_default :
  let self := {| BaseAIClient.self_config := fillDefaults (sampleConfig "sk-test" None) "u" "m";
                 BaseAIClient.self_provider := lit "openai" |} in
  let callAPI := fun (_ : jsstring) (_ : CompletionRequest) (t : list event) =>
                   (t, Returned JNull) in
  let parse := fun (_ : jsval) (_ : Z) =>
                 Returned {| suggestions := []; resp_model := JUndefined |} in
  BaseAIClient.getCompletions callAPI parse None self (sampleRequest "x" None None) []
  = ([], Thrown (AIClientError (lit "Unexpected error: AI_DEFAULTS is not defined")
                               (Some (lit "openai")) None
                               (Some (NativeError ReferenceErrorC
                                        (lit "AI_DEFAULTS is not defined"))))).
Proof. reflexivity. Qed.

(** X6: when the request is acceptable and [callAPI] fails with a
    [TypeError] whose message contains ["fetch"],
    [BaseAIClient.getCompletions] throws the "Network error" [AIClientError]
    with the provider of the client and the [TypeError] as its cause, and
    adds nothing to what [callAPI] did. *)
Theorem BaseAIClient_network_error
        (callAPI : jsstring -> CompletionRequest -> M jsval)
        (parseResponse : jsval -> Z -> completion CompletionResponse)
        (dflt : option Z) (self : BaseAIClient.t) (request : CompletionRequest)
        (t0 t1 : list event) (message : jsstring) :
  requestAcceptable request = true ->
  callAPI (BaseAIClient.buildPrompt request) request t0
  = (t1, Thrown (NativeError TypeErrorC message)) ->
  includes (lit "fetch") message = true ->
  BaseAIClient.getCompletions callAPI parseResponse dflt self request t0
  = (t1, Thrown (AIClientError (lit "Network error: Unable to connect to AI service")
                               (Some (BaseAIClient.self_provider self)) None
                               (Some (NativeError TypeErrorC message)))).
Proof.
  intros Hreq Hcall Hfetch.
  apply (validateRequest_accepts_iff self) in Hreq.
  unfold BaseAIClient.getCompletions. run_M.
  rewrite Hreq, Hcall. cbn [BaseAIClient.handleError andb]. now rewrite Hfetch.
Qed.

Lemma BaseAIClient_network_error_witness :
  let self := {| BaseAIClient.self_config := fillDefaults (sampleConfig "sk-test" None) "u" "m";
                 BaseAIClient.self_provider := lit "claude" |} in
  let callAPI := fun (_ : jsstring) (_ : CompletionRequest) (t : list event) =>
                   (t, @Thrown jsval (NativeError TypeErrorC (lit "fetch failed"))) in
  let parse := fun (_ : jsval) (_ : Z) =>
                 Returned {| suggestions := []; resp_model := JUndefined |} in
  let request := sampleRequest "x" None None in
  requestAcceptable request = true
  /\ callAPI (BaseAIClient.buildPrompt request) request []
     = ([], Thrown (NativeError TypeErrorC (lit "fetch failed")))
  /\ includes (lit "fetch") (lit "fetch failed") = true
  /\ snd (BaseAIClient.getCompletions callAPI parse (Some 3%Z) self request [])
     = Thrown (AIClientError (lit "Network error: Unable to connect to AI service")
                             (Some (lit "claude")) None
                             (Some (NativeError TypeErrorC (lit "fetch failed")))).
Proof.
  intros self callAPI parse request.
  split; [reflexivity|]. split; [reflexivity|]. split; [reflexivity|].
  rewrite (BaseAIClient_network_error callAPI parse (Some 3%Z) self request [] []
             (lit "fetch failed") eq_refl eq_refl eq_refl).
  reflexivity.
Defined.

(* ------------------------------------------------------------------ *)
(** ** The exported clients on the network *)

(** Every path through [getCompletions] of an exported client. *)
Lemma getCompletions_cases
      (fetch : WireRequest -> FetchOutcome) (c : AIClient)
      (request : CompletionRequest) (t0 : list event) :
  let w := wireRequestOf c request in
  let logged e := EvConsoleError (lit (logLabel c)) e in
  getCompletions fetch c request t0
  = match fetch w with
    | Rejected e => (t0 ++ [EvFetch w; logged e], Thrown e)
    | Resolved r =>
        if ok r then
          match json r with
          | None => (t0 ++ [EvFetch w; EvReadBody; logged JSON_ERROR], Thrown JSON_ERROR)
          | Some data =>
              match parseOf c request data with
              | Returned resp => (t0 ++ [EvFetch w; EvReadBody], Returned resp)
              | Thrown e => (t0 ++ [EvFetch w; EvReadBody; logged e], Thrown e)
              end
          end
        else (t0 ++ [EvFetch w; logged (httpError c r)], Thrown (httpError c r))
    end.
Proof.
  intros w logged. subst w logged.
  destruct c as [c|c]; cbn [getCompletions wireRequestOf logLabel parseOf].
  - unfold ClaudeClient.getCompletions. run_M.
    destruct (fetch _) as [r|e]; run_M; [|now rewrite <- app_assoc].
    destruct (ok r); run_M; [|now rewrite <- app_assoc].
    destruct (json r) as [data|]; run_M; [|now repeat rewrite <- app_assoc].
    destruct (ClaudeClient.parseResponse _ _); now repeat rewrite <- app_assoc.
  - unfold OpenAIClient.getCompletions. run_M.
    destruct (fetch _) as [r|e]; run_M; [|now rewrite <- app_assoc].
    destruct (ok r); run_M; [|now rewrite <- app_assoc].
    destruct (json r) as [data|]; run_M; [|now repeat rewrite <- app_assoc].
    destruct (OpenAIClient.parseResponse _); now repeat rewrite <- app_assoc.
Qed.

Lemma lastEvent_snoc (t : list event) (e : event) : lastEvent (t ++ [e]) = Some e.
Proof. unfold lastEvent. now rewrite rev_unit. Qed.

Lemma lastEvent_snoc2 (t : list event) (a e : event) : lastEvent (t ++ [a; e]) = Some e.
Proof. change [a; e] with ([a] ++ [e]). rewrite app_assoc. apply lastEvent_snoc. Qed.

Lemma lastEvent_snoc3 (t : list event) (a b e : event) :
  lastEvent (t ++ [a; b; e]) = Some e.
Proof. change [a; b; e] with ([a; b] ++ [e]). rewrite app_assoc. apply lastEvent_snoc. Qed.

(** X7: one call of [getCompletions] on an exported client sends exactly
    one request and reads at most one body, whatever the request holds and
    however the network answers: there is no retry. *)
Theorem getCompletions_one_request
        (fetch : WireRequest -> FetchOutcome) (c : AIClient)
        (request : CompletionRequest) (t0 : list event) :
  requests_sent (fst (getCompletions fetch c request t0)) = S (requests_sent t0)
  /\ bodies_read (fst (getCompletions fetch c request t0)) <= S (bodies_read t0).
Proof.
  rewrite getCompletions_cases.
  destruct (fetch _) as [r|e]; [destruct (ok r); [destruct (json r) as [data|];
    [destruct (parseOf c request data)|]|]|];
    cbn [fst]; rewrite requests_sent_app, bodies_read_app;
    unfold requests_sent, bodies_read;
    cbn [filter is_fetch is_read_body List.length]; lia.
Qed.

(** X8: whenever [getCompletions] of an exported client throws, the last
    thing it did was to log that same error with [console.error], and the
    error is the one that arose, not a wrapper; whenever it returns, it has
    logged nothing: the trace grew by the request and the body read only. *)
Theorem getCompletions_logs_what_it_throws
        (fetch : WireRequest -> FetchOutcome) (c : AIClient)
        (request : CompletionRequest) (t0 : list event) :
  match getCompletions fetch c request t0 with
  | (t, Thrown e) => lastEvent t = Some (EvConsoleError (lit (logLabel c)) e)
  | (t, Returned _) => t = t0 ++ [EvFetch (wireRequestOf c request); EvReadBody]
  end.
Proof.
  rewrite getCompletions_cases.
  destruct (fetch _) as [r|e]; [destruct (ok r); [destruct (json r) as [data|];
    [destruct (parseOf c request data)|]|]|];
    try reflexivity;
    first [apply lastEvent_snoc3 | apply lastEvent_snoc2].
Qed.

(** X9: when the network refuses the request, an exported client throws
    the very error [fetch] rejected with -- it is not turned into the
    "Network error" [AIClientError] of [BaseAIClient.handleError] -- after
    logging it, and reads no body. *)
Theorem getCompletions_rethrows_network_failure
        (fetch : WireRequest -> FetchOutcome) (c : AIClient)
        (request : CompletionRequest) (e : js_error) (t0 : list event) :
  fetch (wireRequestOf c request) = Rejected e ->
  getCompletions fetch c request t0
  = (t0 ++ [EvFetch (wireRequestOf c request); EvConsoleError (lit (logLabel c)) e],
     Thrown e).
Proof.
  intros H. rewrite getCompletions_cases. now rewrite H.
Qed.

Lemma getCompletions_rethrows_network_failure_witness :
  let e := NativeError TypeErrorC (lit "fetch failed") in
  let c := IsClaude (ClaudeClient.constructor (sampleConfig "sk-test" None)) in
  let request := sampleRequest "x" None None in
  refusing e (wireRequestOf c request) = Rejected e
  /\ snd (run (getCompletions (refusing e) c request)) = Thrown e.
Proof.
  intros e c request. split; [reflexivity|].
  unfold run.
  now rewrite (getCompletions_rethrows_network_failure (refusing e) c request e []
                 eq_refl).
Defined.

(** X10: when an ok response has a body that is not JSON, an exported
    client throws the [SyntaxError] of [response.json()] after the one
    request and the one body read, and logs it; no parser runs and no
    suggestion list, not even an empty one, is returned. *)
Theorem getCompletions_body_not_json
        (fetch : WireRequest -> FetchOutcome) (c : AIClient)
        (request : CompletionRequest) (r : Response) (t0 : list event) :
  fetch (wireRequestOf c request) = Resolved r ->
  ok r = true ->
  json r = None ->
  getCompletions fetch c request t0
  = (t0 ++ [EvFetch (wireRequestOf c request); EvReadBody;
            EvConsoleError (lit (logLabel c)) JSON_ERROR],
     Thrown JSON_ERROR).
Proof.
  intros Hf Hok Hj. rewrite getCompletions_cases. now rewrite Hf, Hok, Hj.
Qed.

Lemma getCompletions_body_not_json_witness :
  let fetch := answering 200 "OK" None in
  let c := IsOpenAI (OpenAIClient.constructor (sampleConfig "sk-test" None)) in
  let request := sampleRequest "x" None None in
  let r := {| status := 200; statusText := lit "OK"; json := None |} in
  fetch (wireRequestOf c request) = Resolved r
  /\ ok r = true
  /\ json r = None
  /\ snd (run (getCompletions fetch c request)) = Thrown JSON_ERROR.
Proof.
  intros fetch c request r.
  split; [reflexivity|]. split; [reflexivity|]. split; [reflexivity|].
  unfold run.
  now rewrite (getCompletions_body_not_json fetch c request r [] eq_refl eq_refl eq_refl).
Defined.

(* ------------------------------------------------------------------ *)
(** ** Normalization in the exported constructors *)

Lemma or_str_truthy (x : option jsstring) (d : jsstring) :
  str_truthy d = true -> str_truthy (or_str x d) = true.
Proof.
  intros H. unfold or_str. destruct x as [v|]; [|exact H].
  destruct (str_truthy v) eqn:E; [exact E | exact H].
Qed.

Lemma or_int_truthy (x : option Z) (d : Z) :
  int_truthy d = true -> int_truthy (or_int x d) = true.
Proof.
  intros H. unfold or_int. destruct x as [v|]; [|exact H].
  destruct (int_truthy v) eqn:E; [exact E | exact H].
Qed.

Lemma or_num_truthy (x : option float) (d : float) :
  num_truthy d = true -> num_truthy (or_num x d) = true.
Proof.
  intros H. unfold or_num. destruct x as [v|]; [|exact H].
  destruct (num_truthy v) eqn:E; [exact E | exact H].
Qed.

Lemma fillDefaults_filledIn (cfg : BaseAIConfig) (u m : string) :
  str_truthy (lit u) = true -> str_truthy (lit m) = true ->
  filledIn (fillDefaults cfg u m) = true.
Proof.
  intros Hu Hm. unfold filledIn, fillDefaults. cbn [r_baseURL r_model r_maxTokens r_temperature].
  rewrite (or_str_truthy _ _ Hu), (or_str_truthy _ _ Hm).
  rewrite (or_int_truthy (maxTokens cfg) 100 eq_refl).
  now rewrite (or_num_truthy (temperature cfg) 0.3%float eq_refl).
Qed.

(** X11: the configuration a client of [createAIClient] holds has every
    optional field filled in with a truthy value -- a non-empty base URL
    and model, a [maxTokens] other than 0, a temperature other than 0 and
    NaN -- and the API key exactly as it was given; nothing else is
    guaranteed: a negative [maxTokens] stays as it is. *)
Theorem createAIClient_fills_defaults (pc : AIProviderConfig) :
  exists c, createAIClient pc = Returned c
            /\ filledIn (client_config c) = true
            /\ r_apiKey (client_config c) = apiKey (config pc)
            /\ (forall k, maxTokens (config pc) = Some k -> (k < 0)%Z ->
                          r_maxTokens (client_config c) = k).
Proof.
  unfold createAIClient.
  destruct (str_eqb (provider pc) (lit "claude")); eexists;
    (split; [reflexivity|]); cbn [client_config ClaudeClient.constructor
      OpenAIClient.constructor ClaudeClient.self_config OpenAIClient.self_config];
    (split; [now apply fillDefaults_filledIn|]); (split; [reflexivity|]);
    intros k Hk Hneg; unfold fillDefaults, or_int, int_truthy; cbn [r_maxTokens];
    rewrite Hk; destruct (Z.eqb_spec k 0); (lia || reflexivity).
Qed.

(** X12: normalization is idempotent: a client constructed from the
    configuration another client holds, holds the same configuration. *)
Theorem constructor_idempotent (cfg : BaseAIConfig) :
  OpenAIClient.constructor (asConfig (OpenAIClient.self_config (OpenAIClient.constructor cfg)))
  = OpenAIClient.constructor cfg
  /\ ClaudeClient.constructor (asConfig (ClaudeClient.self_config (ClaudeClient.constructor cfg)))
     = ClaudeClient.constructor cfg.
Proof.
  assert (G : forall u m, str_truthy (lit u) = true -> str_truthy (lit m) = true ->
                          fillDefaults (asConfig (fillDefaults cfg u m)) u m
                          = fillDefaults cfg u m).
  { intros u m Hu Hm.
    pose proof (fillDefaults_filledIn cfg u m Hu Hm) as F.
    unfold filledIn in F.
    apply andb_prop in F as [F Ht]. apply andb_prop in F as [F Hk].
    apply andb_prop in F as [Hb Hmo].
    destruct (fillDefaults cfg u m) as [k b mo mt te].
    cbn [r_baseURL r_model r_maxTokens r_temperature] in *.
    unfold fillDefaults, asConfig, or_str, or_int, or_num.
    cbn [apiKey baseURL model maxTokens temperature r_apiKey r_baseURL r_model
         r_maxTokens r_temperature].
    now rewrite Hb, Hmo, Hk, Ht. }
  split.
  - unfold OpenAIClient.constructor. cbn [OpenAIClient.self_config].
    now rewrite G.
  - unfold ClaudeClient.constructor. cbn [ClaudeClient.self_config].
    now rewrite G.
Qed.

(* ------------------------------------------------------------------ *)
(** ** The Claude parser: bound and fallback *)

Lemma scanContent_length (items : list jsval) (m : Z) (l : list CompletionSuggestion) :
  ClaudeClient.scanContent items m = Returned l -> List.length l <= Z.to_nat m.
Proof.
  induction items as [|b items IH]; simpl.
  - intros [= <-]. simpl. lia.
  - destruct (getProp b "type") as [ty|]; simpl; [|discriminate].
    destruct (is_str ty "text"); [|exact IH].
    destruct (getProp b "text") as [tx|]; simpl; [|discriminate].
    destruct (truthy tx); [|exact IH].
    destruct (callTrim tx) as [t|]; simpl; [|discriminate].
    destruct (str_truthy t); [|exact IH].
    intros [= <-]. rewrite pushLines_length. lia.
Qed.

Lemma fallback_length (c : jsval) (l l' : list CompletionSuggestion) :
  ClaudeClient.fallback c l = Returned l' ->
  List.length l' <= Nat.max 1 (List.length l).
Proof.
  unfold ClaudeClient.fallback.
  destruct l as [|s l]; [|intros [= <-]; simpl; lia].
  destruct (truthy c); [|intros [= <-]; simpl; lia].
  destruct (getIndex0 c) as [c0|]; simpl; [|discriminate].
  destruct (truthy c0); [|intros [= <-]; simpl; lia].
  destruct (getProp c0 "text") as [t0|]; simpl; [|discriminate].
  destruct (truthy t0); [|intros [= <-]; simpl; lia].
  destruct (callTrim t0); simpl; [|discriminate].
  intros [= <-]. simpl. lia.
Qed.

Lemma ClaudeClient_parse_length (data : jsval) (m : Z) (r : CompletionResponse) :
  ClaudeClient.parseResponse data m = Returned r ->
  List.length (suggestions r) <= Z.to_nat (Z.max 1 m).
Proof.
  unfold ClaudeClient.parseResponse.
  destruct (getProp data "content") as [c|]; simpl; [|discriminate].
  assert (S : forall l, (if truthy c
                         then match asArray c with
                              | Some items => ClaudeClient.scanContent items m
                              | None => Returned []
                              end
                         else Returned []) = Returned l ->
                        List.length l <= Z.to_nat m).
  { intros l. destruct (truthy c); [destruct (asArray c) as [items|]|];
      try (intros [= <-]; simpl; lia).
    apply scanContent_length. }
  destruct (if truthy c then _ else _) as [l|]; simpl; [|discriminate].
  specialize (S l eq_refl).
  destruct (ClaudeClient.fallback c l) as [l'|] eqn:F; simpl; [|discriminate].
  apply fallback_length in F.
  destruct (getProp data "model"); simpl; [|discriminate].
  intros [= <-]. cbn [suggestions]. lia.
Qed.

(** X13: whatever the payload, when the Claude parser returns, it returns
    at most [maxSuggestions] suggestions, or at most one when
    [maxSuggestions] is not positive; so [ClaudeClient.getCompletions],
    whatever the network answers, returns at most as many suggestions as
    the request asks for, three when it asks for none. *)
Theorem ClaudeClient_parse_bound
        (fetch : WireRequest -> FetchOutcome) (c : ClaudeClient.t)
        (request : CompletionRequest) (t0 t : list event)
        (data : jsval) (m : Z) (r r' : CompletionResponse) :
  (ClaudeClient.parseResponse data m = Returned r ->
   List.length (suggestions r) <= Z.to_nat (Z.max 1 m))
  /\ (ClaudeClient.getCompletions fetch c request t0 = (t, Returned r') ->
      List.length (suggestions r')
      <= Z.to_nat (Z.max 1 (or_int (maxSuggestions request) 3))).
Proof.
  split; [apply ClaudeClient_parse_length|].
  change (ClaudeClient.getCompletions fetch c request t0)
    with (getCompletions fetch (IsClaude c) request t0).
  rewrite getCompletions_cases.
  destruct (fetch _) as [resp|e]; [destruct (ok resp); [destruct (json resp) as [d|]|]|];
    try discriminate.
  cbn [parseOf].
  destruct (ClaudeClient.parseResponse d _) as [r0|e] eqn:E; [|discriminate].
  intros [= _ <-]. now apply ClaudeClient_parse_length in E.
Qed.

Lemma ClaudeClient_parse_bound_witness :
  let fetch := answering 200 "OK" (Some (oneTextBlock abcLines)) in
  let c := ClaudeClient.constructor (sampleConfig "sk-test" None) in
  let request := sampleRequest "x" None (Some 2%Z) in
  let r := {| suggestions := numbered 0 [lit "a"; lit "b"]; resp_model := JUndefined |} in
  ClaudeClient.parseResponse (oneTextBlock abcLines) 2 = Returned r
  /\ ClaudeClient.getCompletions fetch c request []
     = ([EvFetch (ClaudeClient.wireRequest c request); EvReadBody], Returned r)
  /\ List.length (suggestions r) <= 2.
Proof.
  intros fetch c request r.
  assert (P : ClaudeClient.parseResponse (oneTextBlock abcLines) 2 = Returned r)
    by (vm_compute; reflexivity).
  assert (G : ClaudeClient.getCompletions fetch c request []
              = ([EvFetch (ClaudeClient.wireRequest c request); EvReadBody], Returned r))
    by (vm_compute; reflexivity).
  split; [exact P|]. split; [exact G|].
  exact (proj2 (ClaudeClient_parse_bound fetch c request [] _
                  (oneTextBlock abcLines) 2 r r) G).
Defined.

Lemma isTextBlock_parts (b : jsval) (t : jsstring) :
  isTextBlock b t = true ->
  exists props, b = JObj props
                /\ is_str (lookup (lit "type") props) "text" = true
                /\ lookup (lit "text") props = JStr t.
Proof.
  destruct b as [| |x|x|s|items|props]; simpl; try discriminate.
  intros H. apply andb_prop in H as [Hty Htx].
  destruct (lookup (lit "text") props) as [| |x|x|s|items|ps] eqn:E; try discriminate.
  apply str_eqb_eq in Htx. subst s. exists props.
  split; [reflexivity|]. split; [exact Hty | exact E].
Qed.

(** X14: a [content] array that starts with a text block whose text is
    not empty but whitespace-only, and has no block with visible text
    behind it, makes the Claude parser return one suggestion whose text is
    the empty string, with confidence 0.9: the fallback tests the text
    before trimming it. *)
Theorem ClaudeClient_blank_text_gives_empty_suggestion
        (props : list (jsstring * jsval)) (b : jsval) (rest : list jsval)
        (t : jsstring) (m : Z) :
  lookup (lit "content") props = JArr (b :: rest) ->
  isTextBlock b t = true ->
  str_truthy t = true ->
  blank t = true ->
  forallb passedOver rest = true ->
  ClaudeClient.parseResponse (JObj props) m
  = Returned {| suggestions := [ {| text := []; confidence := Some 0.9%float;
                                    type := Some completion_t |} ];
                resp_model := lookup (lit "model") props |}.
Proof.
  intros Hc Hb Ht Hblank Hrest.
  destruct (isTextBlock_parts b t Hb) as (bp & -> & Hty & Htx).
  assert (P : passedOver (JObj bp) = true).
  { cbn [passedOver]. rewrite Htx, Hblank. now rewrite orb_true_r. }
  unfold ClaudeClient.parseResponse. cbn [getProp cbind]. rewrite Hc.
  cbn [truthy asArray].
  rewrite (scanContent_passes_over _ rest m P).
  rewrite <- (app_nil_r rest), (scanContent_passes_over_all rest [] m Hrest).
  cbn [ClaudeClient.scanContent cbind ClaudeClient.fallback truthy getIndex0 nth getProp].
  rewrite Htx. cbn [truthy]. rewrite Ht. cbn [callTrim cbind].
  now rewrite (proj2 (trim_nil_iff t) Hblank).
Qed.

Lemma ClaudeClient_blank_text_witness :
  let t := lit "   " in
  lookup (lit "content") (oneTextBlockProps t) = JArr (textBlock t :: [])
  /\ isTextBlock (textBlock t) t = true
  /\ str_truthy t = true
  /\ blank t = true
  /\ forallb passedOver [] = true
  /\ List.length (match ClaudeClient.parseResponse (oneTextBlock t) 3 with
                  | Returned r => suggestions r
                  | Thrown _ => []
                  end) = 1.
Proof.
  intros t.
  split; [reflexivity|]. split; [reflexivity|]. split; [reflexivity|].
  split; [reflexivity|]. split; [reflexivity|].
  unfold oneTextBlock.
  now rewrite (ClaudeClient_blank_text_gives_empty_suggestion
                 (oneTextBlockProps t) (textBlock t) [] t 3
                 eq_refl eq_refl eq_refl eq_refl eq_refl).
Defined.

(** X15: with a [maxSuggestions] that is not positive the cap on the lines
    turns into no cap at all: when the first block of [content] is a text
    block with visible text, the loop emits nothing and the fallback
    returns the whole trimmed text, all its lines, as one suggestion with
    confidence 0.9. *)
Theorem ClaudeClient_nonpositive_max_returns_whole_text
        (props : list (jsstring * jsval)) (b : jsval) (rest : list jsval)
        (t : jsstring) (m : Z) :
  lookup (lit "content") props = JArr (b :: rest) ->
  isTextBlock b t = true ->
  blank t = false ->
  (m <= 0)%Z ->
  ClaudeClient.parseResponse (JObj props) m
  = Returned {| suggestions := [wholeText t];
                resp_model := lookup (lit "model") props |}.
Proof.
  intros Hc Hb Hblank Hm.
  unfold ClaudeClient.parseResponse. cbn [getProp cbind]. rewrite Hc.
  cbn [truthy asArray].
  rewrite (scanContent_text_block b t rest m Hb Hblank). cbn [cbind].
  assert (E : ClaudeClient.pushLines (nonEmptyLines (trim t)) m = []).
  { unfold ClaudeClient.pushLines.
    replace (Z.to_nat (Z.min (Z.of_nat (List.length (nonEmptyLines (trim t)))) m))
      with 0 by lia.
    reflexivity. }
  rewrite E.
  destruct (isTextBlock_parts b t Hb) as (bp & -> & Hty & Htx).
  cbn [ClaudeClient.fallback truthy getIndex0 nth getProp cbind].
  rewrite Htx. cbn [truthy].
  assert (T : str_truthy t = true) by (destruct t; [discriminate Hblank | reflexivity]).
  rewrite T. reflexivity.
Qed.

Lemma ClaudeClient_nonpositive_max_witness :
  lookup (lit "content") (oneTextBlockProps abcLines) = JArr (textBlock abcLines :: [])
  /\ isTextBlock (textBlock abcLines) abcLines = true
  /\ blank abcLines = false
  /\ (-1 <= 0)%Z
  /\ ClaudeClient.parseResponse (oneTextBlock abcLines) (-1)
     = Returned {| suggestions := [ {| text := abcLines; confidence := Some 0.9%float;
                                       type := Some completion_t |} ];
                   resp_model := JUndefined |}.
Proof.
  split; [reflexivity|]. split; [reflexivity|]. split; [reflexivity|].
  split; [lia|].
  unfold oneTextBlock.
  rewrite (ClaudeClient_nonpositive_max_returns_whole_text
             (oneTextBlockProps abcLines) (textBlock abcLines) [] abcLines (-1)
             eq_refl eq_refl eq_refl).
  - vm_compute. reflexivity.
  - lia.
Defined.

(* ------------------------------------------------------------------ *)
(** ** The OpenAI parsers: which suggestions, in which order *)

(** A push loop whose body decides by [carries] and builds by [mk]
    returns the suggestions of the carrying entries, in their order. *)
Lemma pushEach_map_filter
      (body : jsval -> completion (option CompletionSuggestion))
      (carries : jsval -> bool) (mk : jsval -> CompletionSuggestion) :
  (forall x o, body x = Returned o -> o = if carries x then Some (mk x) else None) ->
  forall items acc r,
    pushEach body items acc = Returned r ->
    r = acc ++ map mk (filter carries items).
Proof.
  intros Hbody. induction items as [|x items IH]; simpl; intros acc r H.
  - injection H as <-. now rewrite app_nil_r.
  - destruct (body x) as [o|e] eqn:E; simpl in H; [|discriminate].
    apply Hbody in E. subst o. apply IH in H. subst r.
    destruct (carries x); simpl; [now rewrite <- app_assoc | reflexivity].
Qed.

(** The same loop returns when its body does on every entry. *)
Lemma pushEach_total
      (body : jsval -> completion (option CompletionSuggestion))
      (readable : jsval -> bool) :
  (forall x, readable x = true -> exists o, body x = Returned o) ->
  forall items, forallb readable items = true ->
  forall acc, exists r, pushEach body items acc = Returned r.
Proof.
  intros Hbody. induction items as [|x items IH]; simpl; intros H acc.
  - now exists acc.
  - apply andb_prop in H as [Hx Hitems].
    destruct (Hbody x Hx) as (o & E). rewrite E. simpl. now apply IH.
Qed.

(** A parser made of such a loop, on a payload it can read. *)
Lemma choices_parser_total
      (body : jsval -> completion (option CompletionSuggestion))
      (carries readable : jsval -> bool) (mk : jsval -> CompletionSuggestion)
      (data : jsval) :
  (forall x o, body x = Returned o -> o = if carries x then Some (mk x) else None) ->
  (forall x, readable x = true -> exists o, body x = Returned o) ->
  readableBody data = true ->
  forallb readable (choicesOf data) = true ->
  (choices <- getProp data "choices" ;;
   suggestions <-
     (if truthy choices then
        match asArray choices with
        | Some items => pushEach body items []
        | None => Returned []
        end
      else Returned []) ;;
   m <- getProp data "model" ;;
   Returned {| suggestions := suggestions; resp_model := m |})
  = Returned {| suggestions := map mk (filter carries (choicesOf data));
                resp_model := modelOf data |}.
Proof.
  intros Hbody Htotal Hdata Hchoices.
  destruct data as [| |x|x|s|items|props]; try discriminate; try reflexivity.
  cbn [getProp cbind choicesOf modelOf] in *.
  destruct (lookup (lit "choices") props) as [| |x|x|s|items|ps]; cbn [truthy asArray];
    try reflexivity;
    try (destruct x; reflexivity);
    try (destruct (num_truthy x); reflexivity);
    try (destruct s; reflexivity).
  destruct (pushEach_total body readable Htotal items Hchoices []) as (r & E).
  rewrite E. cbn [cbind].
  apply (pushEach_map_filter body carries mk Hbody) in E. now subst r.
Qed.

Lemma OpenAIClient_pushChoice_spec (choice : jsval) (o : option CompletionSuggestion) :
  OpenAIClient.pushChoice choice = Returned o ->
  o = if carriesText choice then Some (plainSuggestion (choiceContent choice)) else None.
Proof.
  unfold OpenAIClient.pushChoice.
  destruct choice as [| |x|x|s|items|props]; try discriminate;
    try (intros [= <-]; reflexivity).
  cbn [carriesText choiceContent getProp cbind].
  destruct (lookup (lit "message") props) as [| |x|x|s|items|mprops];
    try (cbn [truthy]; try destruct x; try destruct (num_truthy x);
         try destruct s; intros [= <-]; reflexivity).
  cbn [truthy getProp cbind].
  destruct (lookup (lit "content") mprops) as [| |x|x|s|items|ps]; cbn [truthy];
    try (intros [= <-]; reflexivity).
  - destruct x; [discriminate | intros [= <-]; reflexivity].
  - destruct (num_truthy x); [discriminate | intros [= <-]; reflexivity].
  - destruct s as [|c s]; [intros [= <-]; reflexivity|].
    cbn [str_truthy callTrim cbind]. rewrite trim_truthy.
    destruct (blank (c :: s)); intros [= <-]; reflexivity.
Qed.

(** X16: on a payload it can read, the parser of src/ai-client.ts returns,
    in the order of [choices], one suggestion per entry with a non-empty
    trimmed message content, its text the trimmed content, its type
    ['completion'] and no confidence; entries without such content are
    skipped, and [model] is copied as it is. *)
Theorem OpenAIClient_parse_in_order (data : jsval) :
  readableBody data = true ->
  forallb readableChoice (choicesOf data) = true ->
  OpenAIClient.parseResponse data
  = Returned {| suggestions :=
                  map (fun choice => plainSuggestion (choiceContent choice))
                      (filter carriesText (choicesOf data));
                resp_model := modelOf data |}.
Proof.
  intros Hdata Hchoices.
  apply (choices_parser_total OpenAIClient.pushChoice carriesText readableChoice
           (fun choice => plainSuggestion (choiceContent choice)) data
           OpenAIClient_pushChoice_spec).
  - intros x Hx. destruct (OpenAIClient_pushChoice_readable x Hx) as (o & E & _).
    now exists o.
  - exact Hdata.
  - exact Hchoices.
Qed.

Lemma OpenAIClient_parse_in_order_witness :
  readableBody mixedChoices = true
  /\ forallb readableChoice (choicesOf mixedChoices) = true
  /\ OpenAIClient.parseResponse mixedChoices
     = Returned {| suggestions := [plainSuggestion (lit "foo"); plainSuggestion (lit "bar")];
                   resp_model := JUndefined |}.
Proof.
  split; [reflexivity|]. split; [reflexivity|].
  rewrite (OpenAIClient_parse_in_order mixedChoices eq_refl eq_refl).
  reflexivity.
Defined.

Lemma LibOpenAIClient_calculateConfidence_spec (props : list (jsstring * jsval)) :
  LibOpenAIClient.calculateConfidence (JObj props) = Returned (confidenceOf (JObj props)).
Proof.
  unfold LibOpenAIClient.calculateConfidence, confidenceOf. cbn [getProp cbind].
  destruct (is_str _ "stop"); [reflexivity|].
  destruct (is_str _ "length"); reflexivity.
Qed.

Lemma LibOpenAIClient_pushChoice_spec (choice : jsval) (o : option CompletionSuggestion) :
  LibOpenAIClient.pushChoice choice = Returned o ->
  o = if carriesText choice
      then Some {| text := trim (choiceContent choice);
                   confidence := Some (confidenceOf choice);
                   type := Some completion_t |}
      else None.
Proof.
  unfold LibOpenAIClient.pushChoice.
  destruct choice as [| |x|x|s|items|props]; try discriminate;
    try (intros [= <-]; reflexivity).
  rewrite LibOpenAIClient_calculateConfidence_spec.
  cbn [carriesText choiceContent getProp cbind].
  destruct (lookup (lit "message") props) as [| |x|x|s|items|mprops];
    try (cbn [truthy]; try destruct x; try destruct (num_truthy x);
         try destruct s; intros [= <-]; reflexivity).
  cbn [truthy getProp cbind].
  destruct (lookup (lit "content") mprops) as [| |x|x|s|items|ps]; cbn [truthy];
    try (intros [= <-]; reflexivity).
  - destruct x; [discriminate | intros [= <-]; reflexivity].
  - destruct (num_truthy x); [discriminate | intros [= <-]; reflexivity].
  - destruct s as [|c s]; [intros [= <-]; reflexivity|].
    cbn [str_truthy callTrim cbind]. rewrite trim_truthy.
    destruct (blank (c :: s)); intros [= <-]; reflexivity.
Qed.

Lemma LibOpenAIClient_pushChoice_readable (choice : jsval) :
  readableChoice choice = true ->
  exists o, LibOpenAIClient.pushChoice choice = Returned o.
Proof.
  unfold LibOpenAIClient.pushChoice.
  destruct choice as [| |x|x|s|items|props]; try discriminate;
    try (intros _; eexists; reflexivity).
  rewrite LibOpenAIClient_calculateConfidence_spec.
  cbn [readableChoice getProp cbind].
  destruct (lookup (lit "message") props) as [| |x|x|s|items|mprops];
    try (intros _; cbn [truthy]; try destruct x; try destruct (num_truthy x);
         try destruct s; eexists; reflexivity).
  cbn [truthy getProp cbind].
  destruct (lookup (lit "content") mprops) as [| |x|x|s|items|ps]; cbn [truthy negb];
    try discriminate;
    try (intros _; eexists; reflexivity).
  - destruct x; [discriminate|]. intros _; eexists; reflexivity.
  - destruct (num_truthy x); [discriminate|]. intros _; eexists; reflexivity.
  - intros _. destruct s as [|c s]; [eexists; reflexivity|].
    cbn [str_truthy callTrim cbind].
    destruct (str_truthy (trim (c :: s))); eexists; reflexivity.
Qed.

(** X17: on a payload it can read, the parser of the built bundle
    lib/index.js returns, in the order of [choices], one suggestion per
    entry with a non-empty trimmed message content, with the confidence of
    the entry's own finish reason: 0.9 for ['stop'], 0.7 for ['length'], 0.5
    for anything else or none. *)
Theorem LibOpenAIClient_parse_in_order (data : jsval) :
  readableBody data = true ->
  forallb readableChoice (choicesOf data) = true ->
  LibOpenAIClient.parseResponse data
  = Returned {| suggestions :=
                  map (fun choice =>
                         {| text := trim (choiceContent choice);
                            confidence := Some (confidenceOf choice);
                            type := Some completion_t |})
                      (filter carriesText (choicesOf data));
                resp_model := modelOf data |}.
Proof.
  intros Hdata Hchoices.
  exact (choices_parser_total LibOpenAIClient.pushChoice carriesText readableChoice
           _ data LibOpenAIClient_pushChoice_spec LibOpenAIClient_pushChoice_readable
           Hdata Hchoices).
Qed.

Lemma LibOpenAIClient_parse_in_order_witness :
  readableBody mixedChoices = true
  /\ forallb readableChoice (choicesOf mixedChoices) = true
  /\ LibOpenAIClient.parseResponse mixedChoices
     = Returned {| suggestions :=
                     [ {| text := lit "foo"; confidence := Some 0.7%float;
                          type := Some completion_t |};
                       {| text := lit "bar"; confidence := Some 0.5%float;
                          type := Some completion_t |} ];
                   resp_model := JUndefined |}.
Proof.
  split; [reflexivity|]. split; [reflexivity|].
  rewrite (LibOpenAIClient_parse_in_order mixedChoices eq_refl eq_refl).
  vm_compute. reflexivity.
Defined.

Lemma OpenAIClient_pushLegacyChoice_spec (choice : jsval) (o : option CompletionSuggestion) :
  OpenAIClient.pushLegacyChoice choice = Returned o ->
  o = if carriesLegacyText choice then Some (plainSuggestion (legacyText choice)) else None.
Proof.
  unfold OpenAIClient.pushLegacyChoice.
  destruct choice as [| |x|x|s|items|props]; try discriminate;
    try (intros [= <-]; reflexivity).
  cbn [carriesLegacyText legacyText getProp cbind].
  destruct (lookup (lit "text") props) as [| |x|x|s|items|ps]; cbn [truthy];
    try (intros [= <-]; reflexivity).
  - destruct x; [discriminate | intros [= <-]; reflexivity].
  - destruct (num_truthy x); [discriminate | intros [= <-]; reflexivity].
  - destruct s as [|c s]; [intros [= <-]; reflexivity|].
    cbn [str_truthy callTrim cbind]. rewrite trim_truthy.
    destruct (blank (c :: s)); intros [= <-]; reflexivity.
Qed.

Lemma OpenAIClient_pushLegacyChoice_readable (choice : jsval) :
  readableLegacyChoice choice = true ->
  exists o, OpenAIClient.pushLegacyChoice choice = Returned o.
Proof.
  unfold OpenAIClient.pushLegacyChoice.
  destruct choice as [| |x|x|s|items|props]; try discriminate;
    try (intros _; eexists; reflexivity).
  cbn [readableLegacyChoice getProp cbind].
  destruct (lookup (lit "text") props) as [| |x|x|s|items|ps]; cbn [truthy negb];
    try discriminate;
    try (intros _; eexists; reflexivity).
  - destruct x; [discriminate|]. intros _; eexists; reflexivity.
  - destruct (num_truthy x); [discriminate|]. intros _; eexists; reflexivity.
  - intros _. destruct s as [|c s]; [eexists; reflexivity|].
    cbn [str_truthy callTrim cbind].
    destruct (str_truthy (trim (c :: s))); eexists; reflexivity.
Qed.

(** X18: [parseLegacyResponse] reads the text of an entry from
    [choice.text]: on a payload it can read it returns, in the order of
    [choices], one suggestion per entry whose trimmed text is not empty,
    with the trimmed text, the type ['completion'] and no confidence. *)
Theorem OpenAIClient_parseLegacy_in_order (data : jsval) :
  readableBody data = true ->
  forallb readableLegacyChoice (choicesOf data) = true ->
  OpenAIClient.parseLegacyResponse data
  = Returned {| suggestions :=
                  map (fun choice => plainSuggestion (legacyText choice))
                      (filter carriesLegacyText (choicesOf data));
                resp_model := modelOf data |}.
Proof.
  intros Hdata Hchoices.
  exact (choices_parser_total OpenAIClient.pushLegacyChoice carriesLegacyText
           readableLegacyChoice _ data OpenAIClient_pushLegacyChoice_spec
           OpenAIClient_pushLegacyChoice_readable Hdata Hchoices).
Qed.

Lemma OpenAIClient_parseLegacy_in_order_witness :
  readableBody legacySample = true
  /\ forallb readableLegacyChoice (choicesOf legacySample) = true
  /\ OpenAIClient.parseLegacyResponse legacySample
     = Returned {| suggestions := [plainSuggestion (lit " foo "); plainSuggestion (lit "bar")];
                   resp_model := JUndefined |}.
Proof.
  split; [reflexivity|]. split; [reflexivity|].
  rewrite (OpenAIClient_parseLegacy_in_order legacySample eq_refl eq_refl).
  reflexivity.
Defined.

(* ------------------------------------------------------------------ *)
(** ** Trimmed texts *)

Lemma trimStart_idempotent (s : jsstring) : trimStart (trimStart s) = trimStart s.
Proof.
  destruct (trimStart_head s) as [E | (c & r & E & Hc)]; rewrite E; simpl;
    [reflexivity | now rewrite Hc].
Qed.

(** [trimStart] drops a prefix. *)
Lemma trimStart_suffix (s : jsstring) : exists p, s = p ++ trimStart s.
Proof.
  induction s as [|c s (p & IH)]; simpl; [now exists []|].
  destruct (isWhiteSpace c); [|now exists []].
  exists (c :: p). simpl. now rewrite <- IH.
Qed.

(** Trimming twice is trimming once. *)
Lemma trim_idempotent (s : jsstring) : trim (trim s) = trim s.
Proof.
  unfold trim, trimEnd.
  set (u := trimStart s). set (v := trimStart (rev u)).
  assert (A : trimStart (rev v) = rev v).
  { destruct v as [|x v'] eqn:Ev; [reflexivity|].
    destruct (trimStart_suffix (rev u)) as (p & Hp). fold v in Hp. rewrite Ev in Hp.
    assert (Hu : u = rev (x :: v') ++ rev p).
    { rewrite <- rev_app_distr, <- Hp. now rewrite rev_involutive. }
    destruct (trimStart_head s) as [E | (c & r & E & Hc)]; fold u in E.
    - rewrite E in Hu. destruct (rev (x :: v')) eqn:R; [|discriminate Hu].
      apply (f_equal (@rev N)) in R. rewrite rev_involutive in R. discriminate R.
    - rewrite E in Hu. destruct (rev (x :: v')) as [|y w] eqn:R.
      + apply (f_equal (@rev N)) in R. rewrite rev_involutive in R. discriminate R.
      + simpl in Hu. injection Hu as -> _. simpl. now rewrite Hc. }
  rewrite A, rev_involutive. unfold v. now rewrite trimStart_idempotent.
Qed.

Lemma OpenAIClient_pushChoice_clean (choice : jsval) (s : CompletionSuggestion) :
  OpenAIClient.pushChoice choice = Returned (Some s) -> cleanText s.
Proof.
  unfold OpenAIClient.pushChoice.
  destruct (getProp choice "message") as [message|]; simpl; [|discriminate].
  destruct (truthy message); [|discriminate].
  destruct (getProp message "content") as [c|]; simpl; [|discriminate].
  destruct (truthy c); [|discriminate].
  destruct c as [| |x|x|t|items|ps]; simpl; try discriminate.
  destruct (str_truthy (trim t)) eqn:T; [|discriminate].
  intros [= <-]. split; cbn [text].
  - intros E. now rewrite E in T.
  - apply trim_idempotent.
Qed.

Lemma OpenAIClient_pushLegacyChoice_clean (choice : jsval) (s : CompletionSuggestion) :
  OpenAIClient.pushLegacyChoice choice = Returned (Some s) -> cleanText s.
Proof.
  unfold OpenAIClient.pushLegacyChoice.
  destruct (getProp choice "text") as [c|]; simpl; [|discriminate].
  destruct (truthy c); [|discriminate].
  destruct c as [| |x|x|t|items|ps]; simpl; try discriminate.
  destruct (str_truthy (trim t)) eqn:T; [|discriminate].
  intros [= <-]. split; cbn [text].
  - intros E. now rewrite E in T.
  - apply trim_idempotent.
Qed.

(** X19: whatever the payload, when [parseResponse] or
    [parseLegacyResponse] of [OpenAIClient] returns, every suggestion has a
    text that is not empty and has no whitespace at either end. *)
Theorem OpenAIClient_suggestions_clean (data : jsval) (r : CompletionResponse) :
  OpenAIClient.parseResponse data = Returned r
  \/ OpenAIClient.parseLegacyResponse data = Returned r ->
  Forall cleanText (suggestions r).
Proof.
  intros [H | H]; revert H;
    unfold OpenAIClient.parseResponse, OpenAIClient.parseLegacyResponse;
    (destruct (getProp data "choices") as [choices|]; simpl; [|discriminate]);
    (destruct (truthy choices), (asArray choices) as [items|]; simpl;
     try (destruct (getProp data "model"); simpl; [|discriminate];
          intros [= <-]; constructor)).
  - destruct (pushEach OpenAIClient.pushChoice items []) as [l|] eqn:E; simpl; [|discriminate].
    destruct (getProp data "model"); simpl; [|discriminate].
    intros [= <-]. simpl.
    apply (pushEach_Forall _ _ OpenAIClient_pushChoice_clean items [] l);
      [constructor | exact E].
  - destruct (pushEach OpenAIClient.pushLegacyChoice items []) as [l|] eqn:E; simpl;
      [|discriminate].
    destruct (getProp data "model"); simpl; [|discriminate].
    intros [= <-]. simpl.
    apply (pushEach_Forall _ _ OpenAIClient_pushLegacyChoice_clean items [] l);
      [constructor | exact E].
Qed.

Lemma OpenAIClient_suggestions_clean_witness :
  let r := {| suggestions := [plainSuggestion (lit " foo "); plainSuggestion (lit "bar")];
              resp_model := JUndefined |} in
  (OpenAIClient.parseResponse legacySample = Returned r
   \/ OpenAIClient.parseLegacyResponse legacySample = Returned r)
  /\ Forall cleanText (suggestions r).
Proof.
  intros r.
  assert (H : OpenAIClient.parseResponse legacySample = Returned r
              \/ OpenAIClient.parseLegacyResponse legacySample = Returned r)
    by (right; reflexivity).
  split; [exact H|].
  exact (OpenAIClient_suggestions_clean legacySample r H).
Defined.

(* ------------------------------------------------------------------ *)
(** ** The workspace settings *)

Lemma readProviderConfig_some (cfg : WorkspaceConfiguration) (tag prefix : string)
      (pc : AIProviderConfig) :
  readProviderConfig cfg tag prefix = Some pc ->
  provider pc = lit tag
  /\ str_truthy (apiKey (config pc)) = true
  /\ getString cfg (prefix ++ ".apiKey") = Some (apiKey (config pc)).
Proof.
  unfold readProviderConfig.
  destruct (getString cfg (prefix ++ ".apiKey")) as [key|]; [|discriminate].
  destruct (str_truthy key) eqn:K; [|discriminate].
  intros [= <-]. cbn [provider config apiKey]. auto.
Qed.

(** X20: [getAIConfigFromWorkspace] never throws and never touches the
    network.  A configuration it returns is tagged ['claude'] or ['openai'],
    whatever the [provider] setting says, and has a non-empty API key; when
    the workspace cannot be read it returns nothing, after logging the
    error. *)
Theorem getAIConfigFromWorkspace_outcome
        (workspace : completion WorkspaceConfiguration) (t0 : list event) :
  exists o t,
    getAIConfigFromWorkspace workspace t0 = (t, Returned o)
    /\ requests_sent t = requests_sent t0
    /\ (forall pc, o = Some pc ->
                   (provider pc = lit "claude" \/ provider pc = lit "openai")
                   /\ str_truthy (apiKey (config pc)) = true)
    /\ (forall e, workspace = Thrown e ->
                  o = None
                  /\ t = t0 ++ [EvConsoleError
                                  (lit "Error getting AI config from workspace:") e]).
Proof.
  unfold getAIConfigFromWorkspace. run_M.
  destruct workspace as [cfg|e].
  - destruct (str_eqb _ (lit "claude")).
    + eexists. eexists. split; [reflexivity|]. split; [reflexivity|].
      split; [|discriminate].
      intros pc H. apply readProviderConfig_some in H as (Hp & Hk & _). auto.
    + eexists. eexists. split; [reflexivity|]. split; [reflexivity|].
      split; [|discriminate].
      intros pc H. apply readProviderConfig_some in H as (Hp & Hk & _). auto.
  - eexists. eexists. split; [reflexivity|].
    split; [rewrite requests_sent_app; unfold requests_sent; simpl; lia|].
    split; [discriminate|].
    intros e' [= <-]. split; reflexivity.
Qed.

(** X21: [initializeAIClient] never throws and never touches the network.
    The client it installs, if any, holds a non-empty API key and filled-in
    defaults; with readable settings it is a [ClaudeClient] exactly when
    the [provider] setting is the string ['claude'], and it holds the key of
    that provider's own section, so that an unknown provider name runs on
    the OpenAI settings. *)
Theorem initializeAIClient_outcome
        (workspace : completion WorkspaceConfiguration) (t0 : list event) :
  exists o t,
    initializeAIClient workspace t0 = (t, Returned o)
    /\ requests_sent t = requests_sent t0
    /\ (forall c, o = Some c ->
                  str_truthy (r_apiKey (client_config c)) = true
                  /\ filledIn (client_config c) = true)
    /\ (forall cfg c, workspace = Returned cfg -> o = Some c ->
                      (isClaude c = true <-> getString cfg "provider" = Some (lit "claude"))
                      /\ getString cfg (if isClaude c then "claude.apiKey" else "openai.apiKey")
                         = Some (r_apiKey (client_config c))).
Proof.
  unfold initializeAIClient, getAIConfigFromWorkspace. run_M.
  destruct workspace as [cfg|e].
  - destruct (getString cfg "provider") as [p|] eqn:P.
    + destruct (str_eqb p (lit "claude")) eqn:E.
      * apply str_eqb_eq in E. subst p.
        destruct (readProviderConfig cfg "claude" "claude") as [pc|] eqn:R.
        -- apply readProviderConfig_some in R as (Hp & Hk & Hg).
           unfold createAIClient. rewrite Hp. cbn [str_eqb].
           replace (str_eqb (lit "claude") (lit "claude")) with true by reflexivity.
           eexists. eexists. split; [reflexivity|]. split; [reflexivity|].
           split.
           ++ intros c [= <-]. split; [exact Hk | now apply fillDefaults_filledIn].
           ++ intros cfg' c [= <-] [= <-]. cbn [isClaude]. rewrite P.
              split; [split; reflexivity | exact Hg].
        -- eexists. eexists. split; [reflexivity|]. split; [reflexivity|].
           split; [discriminate|]. intros cfg' c _. discriminate.
      * destruct (readProviderConfig cfg "openai" "openai") as [pc|] eqn:R.
        -- apply readProviderConfig_some in R as (Hp & Hk & Hg).
           unfold createAIClient. rewrite Hp.
           replace (str_eqb (lit "openai") (lit "claude")) with false by reflexivity.
           eexists. eexists. split; [reflexivity|]. split; [reflexivity|].
           split.
           ++ intros c [= <-]. split; [exact Hk | now apply fillDefaults_filledIn].
           ++ intros cfg' c [= <-] [= <-]. cbn [isClaude]. rewrite P.
              split; [|exact Hg].
              split; [discriminate|]. intros [= ->].
              assert (str_eqb (lit "claude") (lit "claude") = true) by reflexivity.
              congruence.
        -- eexists. eexists. split; [reflexivity|]. split; [reflexivity|].
           split; [discriminate|]. intros cfg' c _. discriminate.
    + replace (str_eqb (lit "openai") (lit "claude")) with false by reflexivity.
      destruct (readProviderConfig cfg "openai" "openai") as [pc|] eqn:R.
      * apply readProviderConfig_some in R as (Hp & Hk & Hg).
        unfold createAIClient. rewrite Hp.
        replace (str_eqb (lit "openai") (lit "claude")) with false by reflexivity.
        eexists. eexists. split; [reflexivity|]. split; [reflexivity|].
        split.
        -- intros c [= <-]. split; [exact Hk | now apply fillDefaults_filledIn].
        -- intros cfg' c [= <-] [= <-]. cbn [isClaude]. rewrite P.
           split; [|exact Hg]. split; discriminate.
      * eexists. eexists. split; [reflexivity|]. split; [reflexivity|].
        split; [discriminate|]. intros cfg' c _. discriminate.
  - eexists. eexists. split; [reflexivity|].
    split; [rewrite requests_sent_app; unfold requests_sent; simpl; lia|].
    split; [discriminate|]. intros cfg c. discriminate.
Qed.

(* ------------------------------------------------------------------ *)
(** ** The context window *)

(** Joining the lines of a text with line feeds gives the text back. *)
Lemma join_split_lines (s : jsstring) : join nl (split_lines s) = s.
Proof.
  induction s as [|c s IH]; [reflexivity|].
  simpl. destruct (N.eqb c LF) eqn:E.
  - apply N.eqb_eq in E. subst c.
    destruct (split_lines s) as [|l ls] eqn:S; [now destruct (split_lines_not_nil s)|].
    change (join nl ([] :: l :: ls)) with ([] ++ nl ++ join nl (l :: ls)).
    now rewrite IH.
  - destruct (split_lines s) as [|l ls] eqn:S; [now destruct (split_lines_not_nil s)|].
    rewrite <- IH. destruct ls; reflexivity.
Qed.

Lemma split_lines_length_pos (s : jsstring) : 0 < List.length (split_lines s).
Proof.
  pose proof (split_lines_not_nil s). destruct (split_lines s); [congruence | simpl; lia].
Qed.

(** X22: when the cursor is on one of the first six lines and the
    document ends at most five lines below it, the context is the whole
    document text, unchanged. *)
Theorem getContextFromDocument_small_document (document_text : jsstring) (line : Z) :
  (0 <= line <= 5)%Z ->
  (Z.of_nat (List.length (split_lines document_text)) <= line + 6)%Z ->
  getContextFromDocument document_text line = document_text.
Proof.
  intros Hline Hlen.
  pose proof (split_lines_length_pos document_text) as Hpos.
  unfold getContextFromDocument, slice.
  set (lines := split_lines document_text) in *.
  replace (Z.max 0 (line - 5)) with 0%Z by lia.
  replace (Z.min (Z.of_nat (List.length lines) - 1) (line + 5) + 1)%Z
    with (Z.of_nat (List.length lines)) by lia.
  destruct (Z.ltb_spec 0 0); [lia|].
  destruct (Z.ltb_spec (Z.of_nat (List.length lines)) 0); [lia|].
  replace (Z.to_nat (Z.min 0 (Z.of_nat (List.length lines)))) with 0 by lia.
  rewrite Z.min_id.
  replace (Z.to_nat (Z.of_nat (List.length lines) - Z.min 0 (Z.of_nat (List.length lines))))
    with (List.length lines) by lia.
  cbn [skipn]. rewrite firstn_all. apply join_split_lines.
Qed.

Lemma getContextFromDocument_small_witness :
  (0 <= 2 <= 5)%Z
  /\ (Z.of_nat (List.length (split_lines threeLines)) <= 2 + 6)%Z
  /\ getContextFromDocument threeLines 2 = threeLines.
Proof.
  split; [lia|]. split; [vm_compute; discriminate|].
  apply (getContextFromDocument_small_document threeLines 2); [lia|].
  vm_compute. discriminate.
Defined.

(** X23: for a cursor line that is not negative, the context is a run of
    at most eleven consecutive lines of the document, joined by line feeds;
    it starts five lines above the cursor, or at the first line, and when
    the cursor is on a line of the document, that line is in the run; a
    cursor more than five lines past the end gives the empty context. *)
Theorem getContextFromDocument_window (document_text : jsstring) (line : Z) :
  (0 <= line)%Z ->
  exists before window after,
    split_lines document_text = before ++ window ++ after
    /\ getContextFromDocument document_text line = join nl window
    /\ List.length window <= 11
    /\ Z.of_nat (List.length before)
       = Z.min (Z.max 0 (line - 5)) (Z.of_nat (List.length (split_lines document_text)))
    /\ ((line < Z.of_nat (List.length (split_lines document_text)))%Z ->
        (Z.of_nat (List.length before) <= line
         < Z.of_nat (List.length before) + Z.of_nat (List.length window))%Z)
    /\ ((Z.of_nat (List.length (split_lines document_text)) <= line - 5)%Z ->
        window = []).
Proof.
  intros Hline.
  pose proof (split_lines_length_pos document_text) as Hpos.
  unfold getContextFromDocument, slice.
  set (lines := split_lines document_text) in *.
  set (len := Z.of_nat (List.length lines)) in *.
  set (startLine := Z.max 0 (line - 5)).
  set (endLine := Z.min (len - 1) (line + 5)).
  destruct (Z.ltb_spec startLine 0); [lia|].
  destruct (Z.ltb_spec (endLine + 1) 0); [lia|].
  set (k := Z.to_nat (Z.min startLine len)).
  set (n := Z.to_nat (Z.min (endLine + 1) len - Z.min startLine len)).
  exists (firstn k lines), (firstn n (skipn k lines)), (skipn n (skipn k lines)).
  split; [now rewrite (firstn_skipn n), (firstn_skipn k)|].
  split; [reflexivity|].
  rewrite !length_firstn, length_skipn.
  split; [lia|]. split; [lia|]. split; [lia|].
  intros Hfar. replace n with 0 by lia. reflexivity.
Qed.

Lemma getContextFromDocument_window_witness :
  (0 <= 1)%Z
  /\ exists window,
       getContextFromDocument threeLines 1 = join nl window
       /\ List.length window <= 11.
Proof.
  split; [lia|].
  destruct (getContextFromDocument_window threeLines 1)
    as (before & window & after & _ & E & L & _); [lia|].
  exists window. split; [exact E | exact L].
Defined.

(** With the provider set to ["bard"] and both keys present, the client
    is an [OpenAIClient] holding the OpenAI key. *)
Example initializeAIClient_bard :
  initializeAIClient (Returned bardSettings) []
  = ([], Returned (Some (IsOpenAI (OpenAIClient.constructor (sampleConfig "sk-openai" None))))).
Proof. reflexivity. Qed.

(* ------------------------------------------------------------------ *)
(** ** The completion source *)

Section SourceProperties.
Variable fetch : WireRequest -> FetchOutcome.
Variable roundedPercent : float -> jsstring.
Variable textOf : jsval -> jsstring.

Lemma mapi_length {A B : Type} (f : A -> nat -> B) (l : list A) :
  forall i, List.length (mapi f i l) = List.length l.
Proof. induction l as [|x l IH]; intros i; simpl; [reflexivity | now rewrite IH]. Qed.

Lemma mapi_words (response : CompletionResponse) (l : list CompletionSuggestion) :
  forall i, map word (mapi (toItem roundedPercent textOf response) i l) = map text l.
Proof. induction l as [|x l IH]; intros i; simpl; [reflexivity | now rewrite IH]. Qed.

Lemma mapi_sortTexts (response : CompletionResponse) (l : list CompletionSuggestion) :
  forall i, map sortText (mapi (toItem roundedPercent textOf response) i l)
            = map (fun j => lit "0" ++ decimal (Z.of_nat j)) (seq i (List.length l)).
Proof. induction l as [|x l IH]; intros i; simpl; [reflexivity | now rewrite IH]. Qed.

(** The two ways through [getAICompletions] with a client and a
    document. *)
Lemma getAICompletions_cases (c : AIClient) (opt : CompleteOption) (t0 : list event) :
  getAICompletions fetch roundedPercent textOf (Some c) (WithDocument opt) t0
  = match getCompletions fetch c (requestOf opt) t0 with
    | (t1, Returned response) =>
        (t1, Returned (mapi (toItem roundedPercent textOf response) 0 (suggestions response)))
    | (t1, Thrown e) => (t1 ++ [EvConsoleError SOURCE_LABEL e], Returned [])
    end.
Proof.
  unfold getAICompletions. run_M.
  destruct (getCompletions fetch c (requestOf opt) t0) as [t1 [response|e]]; reflexivity.
Qed.

(** The way through it with a client and no document. *)
Lemma getAICompletions_without_document (c : AIClient) (t0 : list event) :
  getAICompletions fetch roundedPercent textOf (Some c) WithoutDocument t0
  = (t0 ++ [EvConsoleError (lit "Error getting context from document:") cannot_read;
            EvConsoleError SOURCE_LABEL cannot_read],
     Returned []).
Proof. unfold getAICompletions. run_M. now rewrite <- app_assoc. Qed.


(** X25: when the client returns, [getAICompletions] returns one item per
    suggestion, in the same order: the word of an item is the text of its
    suggestion and its sort text is ["0"] followed by its position; the
    trace is the client's own. *)
Theorem getAICompletions_items
        (c : AIClient) (opt : CompleteOption) (t0 t1 : list event)
        (response : CompletionResponse) :
  getCompletions fetch c (requestOf opt) t0 = (t1, Returned response) ->
  exists items,
    getAICompletions fetch roundedPercent textOf (Some c) (WithDocument opt) t0
    = (t1, Returned items)
    /\ map word items = map text (suggestions response)
    /\ map sortText items
       = map (fun j => lit "0" ++ decimal (Z.of_nat j))
             (seq 0 (List.length (suggestions response))).
Proof.
  intros H. rewrite getAICompletions_cases, H.
  eexists. split; [reflexivity|]. split; [apply mapi_words | apply mapi_sortTexts].
Qed.

(** X26: through the completion source a [ClaudeClient] yields at most
    three items, whatever the option and whatever the network answers:
    the source always asks for three suggestions and the Claude parser caps
    at what is asked. *)
Theorem getAICompletions_claude_at_most_three
        (c : ClaudeClient.t) (opt : AnyOption) (t0 : list event) :
  exists t items,
    getAICompletions fetch roundedPercent textOf (Some (IsClaude c)) opt t0
    = (t, Returned items)
    /\ List.length items <= 3.
Proof.
  destruct opt as [opt|];
    [|rewrite getAICompletions_without_document;
      eexists; eexists; split; [reflexivity | simpl; lia]].
  rewrite getAICompletions_cases, getCompletions_cases.
  destruct (fetch _) as [r|e]; [destruct (ok r); [destruct (json r) as [data|]|]|];
    try (eexists; eexists; split; [reflexivity | simpl; lia]).
  cbn [parseOf requestOf maxSuggestions or_int int_truthy Z.eqb negb].
  destruct (ClaudeClient.parseResponse data 3) as [response|e] eqn:E;
    eexists; eexists; (split; [reflexivity|]); [|simpl; lia].
  rewrite mapi_length.
  apply (ClaudeClient_parse_length data 3 response) in E. simpl in E. lia.
Qed.

Lemma toItem_menu_without_confidence
      (response : CompletionResponse) (s : CompletionSuggestion) (i : nat) :
  confidence s = None ->
  menu (toItem roundedPercent textOf response s i) = lit "[AI-50%]".
Proof. intros H. unfold toItem. cbn [menu]. now rewrite H. Qed.

Lemma mapi_Forall_menu (response : CompletionResponse) (l : list CompletionSuggestion) :
  Forall (fun s => confidence s = None) l ->
  forall i, Forall (fun item => menu item = lit "[AI-50%]")
                   (mapi (toItem roundedPercent textOf response) i l).
Proof.
  induction 1 as [|s l Hs Hl IH]; intros i; simpl; constructor.
  - now apply toItem_menu_without_confidence.
  - apply IH.
Qed.

(** X27: through the completion source every item of an [OpenAIClient]
    of src/ai-client.ts is labelled ["[AI-50%]"], whatever the option and
    the response: its parser sets no confidence and the source falls back
    to 50. *)
Theorem getAICompletions_openai_menu
        (c : OpenAIClient.t) (opt : AnyOption) (t0 : list event) :
  exists t items,
    getAICompletions fetch roundedPercent textOf (Some (IsOpenAI c)) opt t0
    = (t, Returned items)
    /\ Forall (fun item => menu item = lit "[AI-50%]") items.
Proof.
  destruct opt as [opt|];
    [|rewrite getAICompletions_without_document;
      eexists; eexists; split; [reflexivity | constructor]].
  rewrite getAICompletions_cases, getCompletions_cases.
  destruct (fetch _) as [r|e]; [destruct (ok r); [destruct (json r) as [data|]|]|];
    try (eexists; eexists; split; [reflexivity | constructor]).
  cbn [parseOf].
  destruct (OpenAIClient.parseResponse data) as [response|e] eqn:E;
    eexists; eexists; (split; [reflexivity|]); [|constructor].
  apply mapi_Forall_menu. exact (OpenAIClient_parse_no_confidence data response E).
Qed.

Lemma getAICompletions_returns
      (aiClient : option AIClient) (opt : AnyOption) (t0 : list event) :
  exists t items,
    getAICompletions fetch roundedPercent textOf aiClient opt t0 = (t, Returned items)
    /\ requests_sent t <= S (requests_sent t0).
Proof.
  destruct aiClient as [c|]; [|exists t0, []; split; [reflexivity | lia]].
  destruct opt as [opt|].
  - rewrite getAICompletions_cases.
    assert (R : requests_sent (fst (getCompletions fetch c (requestOf opt) t0))
                = S (requests_sent t0))
      by (destruct c; cbn [getCompletions];
          [apply ClaudeClient_sends_one_request | apply OpenAIClient_sends_one_request]).
    destruct (getCompletions fetch c (requestOf opt) t0) as [t1 [response|e]];
      cbn [fst] in R; eexists; eexists; (split; [reflexivity|]); [lia|].
    rewrite requests_sent_app. unfold requests_sent at 2. simpl. lia.
  - rewrite getAICompletions_without_document.
    eexists. eexists. split; [reflexivity|].
    rewrite requests_sent_app. unfold requests_sent at 2. simpl. lia.
Qed.

(** X28: [getCompletionItems] never throws and sends at most one request;
    when AI completions are disabled, or no client is installed, or no
    completion option is passed, it returns no item and leaves the trace
    as it was, so that nothing goes to the network. *)
Theorem getCompletionItems_guard
        (aiEnabled : bool) (aiClient : option AIClient)
        (opt : option AnyOption) (t0 : list event) :
  exists t items,
    getCompletionItems fetch roundedPercent textOf aiEnabled aiClient opt t0
    = (t, Returned items)
    /\ requests_sent t <= S (requests_sent t0)
    /\ (aiEnabled = false \/ aiClient = None \/ opt = None -> t = t0 /\ items = []).
Proof.
  unfold getCompletionItems.
  destruct aiEnabled; [destruct aiClient as [c|]; [destruct opt as [o|]|]|];
    try (exists t0, []; split; [reflexivity|]; split; [lia|]; intros _; now split).
  run_M.
  destruct (getAICompletions_returns (Some c) o t0) as (t & items & E & R).
  rewrite E. exists t, items. split; [reflexivity|]. split; [exact R|].
  intros [H | [H | H]]; discriminate H.
Qed.
End SourceProperties.

Lemma getAICompletions_items_witness :
  let fetch := answering 200 "OK" (Some fooStop) in
  let c := IsOpenAI (OpenAIClient.constructor (sampleConfig "sk-test" None)) in
  let response := {| suggestions := [plainSuggestion (lit "foo")];
                     resp_model := JUndefined |} in
  getCompletions fetch c (requestOf sampleOption) []
  = ([EvFetch (wireRequestOf c (requestOf sampleOption)); EvReadBody], Returned response)
  /\ exists items,
       snd (getAICompletions fetch (fun _ => lit "?") (fun _ => lit "?")
                             (Some c) (WithDocument sampleOption) [])
       = Returned items
       /\ map word items = [lit "foo"]
       /\ map sortText items = [lit "00"].
Proof.
  intros fetch c response.
  assert (H : getCompletions fetch c (requestOf sampleOption) []
              = ([EvFetch (wireRequestOf c (requestOf sampleOption)); EvReadBody],
                 Returned response)) by reflexivity.
  split; [exact H|].
  destruct (getAICompletions_items fetch (fun _ => lit "?") (fun _ => lit "?")
              c sampleOption [] _ response H) as (items & E & W & S).
  exists items. rewrite E. split; [reflexivity|]. split; [exact W | exact S].
Defined.
